(** * The NRF operator charm (src/charm.py): a shallow embedding

    The charm is a set of event handlers that act on state owned by the
    platform: the workload container (files, Pebble layers, services), the
    unit status, the relations and their data.  The handlers are embedded as
    computations in a state-and-exception monad over a [World] record that
    holds this state, together with a chronological log of the calls the
    handlers make on their collaborators.  Calls to [logger.info] change
    none of this state and are left out. *)

From Stdlib Require Import Ascii String.
From stdpp Require Import base strings gmap list.

Open Scope string_scope.

(** ** Module constants *)

Definition BASE_CONFIG_PATH : string := "/etc/nrf".
Definition CONFIG_FILE_NAME : string := "nrfcfg.yaml".
Definition DATABASE_NAME : string := "free5gc".

(** The f-string [f"{BASE_CONFIG_PATH}/{CONFIG_FILE_NAME}"], used by
    [_write_config_file] and [_config_file_is_written]. *)
Definition config_path : string :=
  BASE_CONFIG_PATH +:+ "/" +:+ CONFIG_FILE_NAME.

(** ** Data *)

(** [ops.model] status values the charm imports; each carries a message
    ([ActiveStatus()] has the empty message). *)
Inductive Status :=
| ActiveStatus (message : string)
| BlockedStatus (message : string)
| WaitingStatus (message : string).

(** One entry of the [services] dictionary of a Pebble layer. *)
Record Service := mkService {
  override : string;
  startup : string;
  command : string;
  environment : gmap string string
}.

(** [ops.pebble.Layer]. *)
Record Layer := mkLayer {
  summary : string;
  description : string;
  services : gmap string Service
}.

(** The events the charm observes in [__init__]; the database-created event
    carries the [uris] attribute, a string or [None]. *)
Inductive Event :=
| database_relation_joined
| nrf_pebble_ready
| nrf_relation_joined
| database_created (uris : option string).

(** Calls made by the handlers on their collaborators, in the order made. *)
Inductive Action :=
| StatusSet (s : Status)
| Deferred (e : Event)
| Pushed (path source : string)
| LayerAdded (label : string) (layer : Layer) (combine : bool)
| Replanned
| InfoSet (url : string).

(** The workload container as seen through [ops.model.Container]. *)
Record Container := mkContainer {
  reachable : bool;
  files : gmap string string;
  layers : list (string * Layer);
  active : gset string
}.

Record World := mkWorld {
  app_name : string;
  model_name : string;
  relations : gmap string (list nat);  (* endpoint name to relation ids *)
  container : Container;
  unit_status : option Status;
  nrf_relation_data : gmap string string;
  trace : list Action
}.

(** [ops.pebble.ServiceInfo], as far as the charm reads it. *)
Record ServiceInfo := mkServiceInfo {
  service_name : string;
  current_active : bool
}.

(** ** The handler monad: state passing with Python exceptions *)

Inductive Exn :=
| ModelError
| TooManyRelatedAppsError
| ConnectionError
| RuntimeError
| IndexError
| AttributeError.

Inductive Outcome (A : Type) :=
| Return (a : A)
| Raise (e : Exn).
Arguments Return {A} a.
Arguments Raise {A} e.

Definition Handler (A : Type) : Type := World -> Outcome A * World.

#[export] Instance Handler_ret : MRet Handler :=
  fun A a w => (Return a, w).

#[export] Instance Handler_bind : MBind Handler :=
  fun A B f m w =>
    match m w with
    | (Return a, w') => f a w'
    | (Raise e, w') => (Raise e, w')
    end.

#[export] Instance Handler_fmap : FMap Handler :=
  fun A B f m => a ← m; mret (f a).

Definition raise {A} (e : Exn) : Handler A := fun w => (Raise e, w).

(** [except ModelError] also catches its subclass
    [TooManyRelatedAppsError]. *)
Definition is_ModelError (e : Exn) : bool :=
  match e with
  | ModelError | TooManyRelatedAppsError => true
  | _ => false
  end.

(** [try: m except exn: h]. *)
Definition try_except {A} (m : Handler A) (caught : Exn -> bool)
    (h : Handler A) : Handler A :=
  fun w =>
    match m w with
    | (Raise e, w') => if caught e then h w' else (Raise e, w')
    | r => r
    end.

Definition gets {A} (f : World -> A) : Handler A := fun w => (Return (f w), w).
Definition modify (f : World -> World) : Handler unit :=
  fun w => (Return tt, f w).

Definition record (a : Action) (w : World) : World :=
  mkWorld (app_name w) (model_name w) (relations w) (container w)
          (unit_status w) (nrf_relation_data w) (trace w ++ [a]).

Definition with_container (f : Container -> Container) (w : World) : World :=
  mkWorld (app_name w) (model_name w) (relations w) (f (container w))
          (unit_status w) (nrf_relation_data w) (trace w).

Definition with_status (s : Status) (w : World) : World :=
  mkWorld (app_name w) (model_name w) (relations w) (container w)
          (Some s) (nrf_relation_data w) (trace w).

Definition with_nrf_relation_data (d : gmap string string) (w : World) : World :=
  mkWorld (app_name w) (model_name w) (relations w) (container w)
          (unit_status w) d (trace w).

(** ** Collaborators *)

Module Pebble.

(** Merging one service definition into another, for [override: merge]. *)
Definition merge_service (old new : Service) : Service :=
  mkService (override new)
            (if String.eqb (startup new) EmptyString then startup old else startup new)
            (if String.eqb (command new) EmptyString then command old else command new)
            (environment new ∪ environment old).

(** Services of [new] laid over [old]: a service with [override: replace]
    replaces the one of the same name, any other one is merged into it. *)
Definition combine_services (old new : gmap string Service)
    : gmap string Service :=
  union_with
    (fun n o => Some (if String.eqb (override n) "replace" then n
                      else merge_service o n))
    new old.

Definition combine_layers (old new : Layer) : Layer :=
  mkLayer
    (if String.eqb (summary new) EmptyString then summary old else summary new)
    (if String.eqb (description new) EmptyString then description old
     else description new)
    (combine_services (services old) (services new)).

Fixpoint has_label (label : string) (ls : list (string * Layer)) : bool :=
  match ls with
  | [] => false
  | (l, _) :: r => String.eqb l label || has_label label r
  end.

Fixpoint update_label (label : string) (new : Layer)
    (ls : list (string * Layer)) : list (string * Layer) :=
  match ls with
  | [] => []
  | (l, old) :: r =>
      if String.eqb l label then (l, combine_layers old new) :: r
      else (l, old) :: update_label label new r
  end.

(** The plan: the layers combined in order. *)
Definition plan (ls : list (string * Layer)) : gmap string Service :=
  foldl (fun acc ll => combine_services acc (services ll.2)) ∅ ls.

(** Services that [replan] starts: those the plan enables at startup. *)
Definition autostart (p : gmap string Service) : gset string :=
  dom (filter (fun kv => startup kv.2 = "enabled") p).

End Pebble.

(** [Container.can_connect()]. *)
Definition can_connect : Handler bool :=
  gets (fun w => reachable (container w)).

(** Every other container call goes to Pebble and fails when the container
    cannot be reached. *)
Definition pebble_call {A} (m : Handler A) : Handler A :=
  fun w => if reachable (container w) then m w else (Raise ConnectionError, w).

(** [Container.push(path=..., source=...)]: the file is created or
    overwritten; the directory of [path] is taken to exist. *)
Definition push (path source : string) : Handler unit :=
  pebble_call (
    modify (record (Pushed path source)) ;;
    modify (with_container (fun c =>
      mkContainer (reachable c) (<[path := source]> (files c)) (layers c)
                  (active c)))).

(** [Container.exists(path)]. *)
Definition exists_ (path : string) : Handler bool :=
  pebble_call (gets (fun w => bool_decide (is_Some (files (container w) !! path)))).

(** [Container.add_layer(label, layer, combine=...)]. *)
Definition add_layer (label : string) (layer : Layer) (combine : bool)
    : Handler unit :=
  pebble_call (
    modify (record (LayerAdded label layer combine)) ;;
    present ← gets (fun w => Pebble.has_label label (layers (container w)));
    if (present : bool) then
      if combine then
        modify (with_container (fun c =>
          mkContainer (reachable c) (files c)
                      (Pebble.update_label label layer (layers c)) (active c)))
      else raise RuntimeError
    else
      modify (with_container (fun c =>
        mkContainer (reachable c) (files c) (layers c ++ [(label, layer)])
                    (active c)))).

(** [Container.replan()]. *)
Definition replan : Handler unit :=
  pebble_call (
    modify (record Replanned) ;;
    modify (with_container (fun c =>
      mkContainer (reachable c) (files c) (layers c)
                  (active c ∪ Pebble.autostart (Pebble.plan (layers c)))))).

(** [Container.get_service(name)]: [ModelError] when the plan has no such
    service. *)
Definition get_service (name : string) : Handler ServiceInfo :=
  pebble_call (
    p ← gets (fun w => Pebble.plan (layers (container w)));
    match p !! name with
    | None => raise ModelError
    | Some _ =>
        a ← gets (fun w => bool_decide (name ∈ active (container w)));
        mret (mkServiceInfo name a)
    end).

(** [ServiceInfo.is_running()]. *)
Definition is_running (s : ServiceInfo) : bool := current_active s.

(** [self.unit.status = s]. *)
Definition set_unit_status (s : Status) : Handler unit :=
  modify (record (StatusSet s)) ;; modify (with_status s).

(** [event.defer()]. *)
Definition defer (e : Event) : Handler unit :=
  modify (record (Deferred e)).

(** [self.model.relations[relation_name]]: the relations on the endpoint. *)
Definition relations_on (relation_name : string) (w : World) : list nat :=
  default [] (relations w !! relation_name).

(** [self.model.get_relation(relation_name)]: the relation on the endpoint,
    [None] when there is none, [TooManyRelatedAppsError] when there are
    several. *)
Definition get_relation (relation_name : string) : Handler (option nat) :=
  rs ← gets (relations_on relation_name);
  match (rs : list nat) with
  | [] => mret None
  | [r] => mret (Some r)
  | _ :: _ :: _ => raise TooManyRelatedAppsError
  end.

(** Modelled from the spec: [NRFProvides.set_info] of the charm library
    [charms.nrf_operator.v0.nrf] is not among the sources.  The spec has the
    relation transport publish a flat key-value payload into the relation,
    with the single key [url], by idempotent overwrite. *)
Definition set_info (url : string) : Handler unit :=
  modify (record (InfoSet url)) ;;
  modify (fun w =>
    with_nrf_relation_data (<["url" := url]> (nrf_relation_data w)) w).

(** ** Python strings *)

(** [s.split(sep)] for a one-character separator: never the empty list. *)
Fixpoint split (sep : ascii) (s : string) : list string :=
  match s with
  | EmptyString => [EmptyString]
  | String c r =>
      if Ascii.eqb c sep then EmptyString :: split sep r
      else match split sep r with
           | [] => [String c EmptyString]
           | h :: t => String c h :: t
           end
  end.

Definition comma : ascii := ","%char.
Definition dquote : string := String "034"%char EmptyString.
Definition newline : string := String "010"%char EmptyString.

(** ** The configuration template *)

Inductive Segment :=
| Text (s : string)
| Var (name : string).

(** [template.render] on a context: a variable is replaced by its value as it
    is, an undefined one by the empty string; lines are joined by newlines. *)
Definition render_segment (context : gmap string string) (g : Segment) : string :=
  match g with
  | Text s => s
  | Var x => default EmptyString (context !! x)
  end.

Definition render_line (context : gmap string string) (l : list Segment) : string :=
  foldr (fun g acc => render_segment context g +:+ acc) EmptyString l.

Definition render (template : list (list Segment))
    (context : gmap string string) : string :=
  String.concat newline (render_line context <$> template).

Definition logger_section (component : string) : list (list Segment) :=
  [ [Text ("  " +:+ component +:+ ":")];
    [Text "    ReportCaller: false"];
    [Text "    debugLevel: info"] ].

(** Modelled from the spec: the template file [src/templates/nrfcfg.yaml.j2]
    is not among the sources.  The spec has a fixed YAML schema with nested
    logger-level sections and two substituted values; the text is the one the
    unit test expects [push] to be called with. *)
Definition nrfcfg_yaml_j2 : list (list Segment) :=
  [ [Text "configuration:"];
    [Text "  DefaultPlmnId:"];
    [Text "    mcc: "; Text dquote; Text "208"; Text dquote];
    [Text "    mnc: "; Text dquote; Text "93"; Text dquote];
    [Text "  MongoDBName: "; Var "database_name"];
    [Text "  MongoDBUrl: "; Var "database_url"];
    [Text "  mongoDBStreamEnable: true"];
    [Text "  mongodb:"];
    [Text "    name: "; Var "database_name"];
    [Text "    url: "; Var "database_url"];
    [Text "  nfKeepAliveTime: 60"];
    [Text "  nfProfileExpiryEnable: true"];
    [Text "  sbi:"];
    [Text "    bindingIPv4: 0.0.0.0"];
    [Text "    port: 29510"];
    [Text "    registerIPv4: nrf"];
    [Text "    scheme: http"];
    [Text "  serviceNameList:"];
    [Text "  - nnrf-nfm"];
    [Text "  - nnrf-disc"];
    [Text "info:"];
    [Text "  description: NRF initial local configuration"];
    [Text "  version: 1.0.0"];
    [Text "logger:"] ]
  ++ concat (logger_section <$>
       [ "AMF"; "AUSF"; "Aper"; "CommonConsumerTest"; "FSM"; "MongoDBLibrary";
         "N3IWF"; "NAS"; "NGAP"; "NRF"; "NamfComm"; "NamfEventExposure";
         "NsmfPDUSession"; "NudrDataRepository"; "OpenApi"; "PCF"; "PFCP";
         "PathUtil"; "SMF"; "UDM"; "UDR"; "WEBUI" ]).

(** ** The charm *)

Module NRFOperatorCharm.

Definition _container_name : string := "nrf".
Definition _service_name : string := "nrf".

(** [event.uris]; the other events have no such attribute. *)
Definition uris (event : Event) : Handler (option string) :=
  match event with
  | database_created u => mret u
  | _ => raise AttributeError
  end.


Definition _write_config_file (database_url : string) : Handler unit :=
  let content :=
    render nrfcfg_yaml_j2
      (<["database_name" := DATABASE_NAME]>
         (<["database_url" := database_url]> ∅)) in
  push config_path content.

Definition _config_file_is_written : Handler bool :=
  present ← exists_ config_path;
  if negb (present : bool) then mret false else mret true.

Definition _relation_created (relation_name : string) : Handler bool :=
  r ← get_relation relation_name;
  match (r : option nat) with
  | None => mret false
  | Some _ => mret true
  end.

Definition _database_relation_is_created : Handler bool :=
  _relation_created "database".

Definition _environment_variables : gmap string string :=
  list_to_map
    [ ("GRPC_GO_LOG_VERBOSITY_LEVEL", "99");
      ("GRPC_GO_LOG_SEVERITY_LEVEL", "info");
      ("GRPC_TRACE", "all");
      ("GRPC_VERBOSITY", "debug");
      ("MANAGED_BY_CONFIG_POD", "true") ].

Definition _pebble_layer : Layer :=
  mkLayer "nrf layer" "pebble config layer for nrf"
    {[ "nrf" :=
         mkService "replace" "enabled"
           ("nrf --nrfcfg " +:+ BASE_CONFIG_PATH +:+ "/" +:+ CONFIG_FILE_NAME)
           _environment_variables ]}.

Definition _nrf_url : Handler string :=
  gets (fun w =>
    "http://" +:+ app_name w +:+ "." +:+ model_name w
      +:+ ".svc.cluster.local:29510").

Definition _update_nrf_relation : Handler unit :=
  url ← _nrf_url;
  set_info url.

Definition _nrf_service_is_running : Handler bool :=
  connected ← can_connect;
  if negb (connected : bool) then mret false
  else
    found ← try_except (Some <$> get_service _service_name)
              is_ModelError
              (mret None);
    match (found : option ServiceInfo) with
    | None => mret false
    | Some service =>
        if negb (is_running service) then mret false else mret true
    end.

Definition _on_nrf_pebble_ready (event : Event) : Handler unit :=
  created ← _database_relation_is_created;
  if negb (created : bool) then
    set_unit_status (BlockedStatus "Waiting for database relation to be created")
  else
    connected ← can_connect;
    if negb (connected : bool) then
      set_unit_status (WaitingStatus "Waiting for container to be ready") ;;
      defer event
    else
      written ← _config_file_is_written;
      if negb (written : bool) then
        set_unit_status (WaitingStatus "Waiting for config file to be written")
      else
        add_layer "nrf" _pebble_layer true ;;
        replan ;;
        set_unit_status (ActiveStatus EmptyString) ;;
        _update_nrf_relation.

Definition _on_database_created (event : Event) : Handler unit :=
  connected ← can_connect;
  if negb (connected : bool) then
    set_unit_status (WaitingStatus "Waiting for container to be ready") ;;
    defer event
  else
    u ← uris event;
    match (u : option string) with
    | None => raise AttributeError
    | Some u =>
        match split comma u with
        | [] => raise IndexError
        | database_url :: _ =>
            _write_config_file database_url ;;
            _on_nrf_pebble_ready event
        end
    end.

Definition _on_nrf_relation_joined (event : Event) : Handler unit :=
  running ← _nrf_service_is_running;
  if negb (running : bool) then mret tt
  else _update_nrf_relation.

(** The observers registered in [__init__]. *)
Definition dispatch (event : Event) : Handler unit :=
  match event with
  | database_relation_joined => _on_nrf_pebble_ready event
  | nrf_pebble_ready => _on_nrf_pebble_ready event
  | nrf_relation_joined => _on_nrf_relation_joined event
  | database_created _ => _on_database_created event
  end.

End NRFOperatorCharm.

(** ** Observing a handler run *)

Definition outcome {A} (m : Handler A) (w : World) : Outcome A := (m w).1.
Definition after {A} (m : Handler A) (w : World) : World := (m w).2.

(** The calls a run adds to the log. *)
Definition new_actions {A} (m : Handler A) (w : World) : list Action :=
  drop (length (trace w)) (trace (after m w)).

Definition status_writes (log : list Action) : list Status :=
  omap (fun a => match a with StatusSet s => Some s | _ => None end) log.

(** [get_relation("database")] finds the relation: there is exactly one. *)
Definition database_relation_present (w : World) : Prop :=
  exists r, relations_on "database" w = [r].
(** There is no relation on the endpoint. *)
Definition database_relation_absent (w : World) : Prop :=
  relations_on "database" w = [].
(** There are several relations on the endpoint: [get_relation] raises. *)
Definition database_relations_several (w : World) : Prop :=
  2 <= length (relations_on "database" w).
Definition runtime_reachable (w : World) : Prop :=
  reachable (container w) = true.
Definition config_file_present (w : World) : Prop :=
  is_Some (files (container w) !! "/etc/nrf/nrfcfg.yaml").

(** The four status values of the charm. *)
Definition charm_statuses : list Status :=
  [ BlockedStatus "Waiting for database relation to be created";
    WaitingStatus "Waiting for container to be ready";
    WaitingStatus "Waiting for config file to be written";
    ActiveStatus EmptyString ].

(** The service entry of the supervision plan. *)
Definition nrf_service : Service :=
  mkService "replace" "enabled" "nrf --nrfcfg /etc/nrf/nrfcfg.yaml"
    (<["GRPC_GO_LOG_VERBOSITY_LEVEL" := "99"]>
       (<["GRPC_GO_LOG_SEVERITY_LEVEL" := "info"]>
          (<["GRPC_TRACE" := "all"]>
             (<["GRPC_VERBOSITY" := "debug"]>
                (<["MANAGED_BY_CONFIG_POD" := "true"]> ∅))))).

(** The published endpoint. *)
Definition published_endpoint (w : World) : string :=
  "http://" +:+ app_name w +:+ "." +:+ model_name w
    +:+ ".svc.cluster.local:29510".

(** Scanning a log: every [add_layer] comes when the configuration file has
    been seen, either before the log starts ([seen]) or by a [push] in it. *)
Fixpoint written_before_applied (seen : bool) (log : list Action) : bool :=
  match log with
  | [] => true
  | Pushed p _ :: r => written_before_applied (seen || String.eqb p config_path) r
  | LayerAdded _ _ _ :: r => seen && written_before_applied seen r
  | _ :: r => written_before_applied seen r
  end.

Fixpoint config_pushed (log : list Action) : bool :=
  match log with
  | [] => false
  | Pushed p _ :: r => String.eqb p config_path || config_pushed r
  | _ :: r => config_pushed r
  end.

(** ** Executions

    The platform delivers events to their observers, one at a time, and
    between deliveries changes what the handlers observe: the container
    comes and goes, relations are created and removed, files and services of
    the container are lost.  It never writes a file. *)

Inductive Step :=
| Deliver (event : Event)
| Reachability (b : bool)
| RelationCreated (name : string) (id : nat)
| RelationRemoved (name : string) (id : nat)
| FileLost (path : string)
| ServiceExited (name : string).

Definition step (s : Step) (w : World) : World :=
  match s with
  | Deliver event => after (NRFOperatorCharm.dispatch event) w
  | Reachability b =>
      with_container (fun c =>
        mkContainer b (files c) (layers c) (active c)) w
  | RelationCreated name id =>
      mkWorld (app_name w) (model_name w)
              (<[name := (relations_on name w ++ [id])%list]> (relations w))
              (container w) (unit_status w) (nrf_relation_data w) (trace w)
  | RelationRemoved name id =>
      mkWorld (app_name w) (model_name w)
              (<[name := filter (fun r => r <> id) (relations_on name w)]>
                 (relations w))
              (container w) (unit_status w) (nrf_relation_data w) (trace w)
  | FileLost path =>
      with_container (fun c =>
        mkContainer (reachable c) (delete path (files c)) (layers c)
                    (active c)) w
  | ServiceExited name =>
      with_container (fun c =>
        mkContainer (reachable c) (files c) (layers c)
                    (active c ∖ {[name]})) w
  end.

Definition run (steps : list Step) (w : World) : World :=
  foldl (fun w s => step s w) w steps.

(** A unit as the platform first starts it: nothing pushed, added or
    published yet. *)
Definition initial_world (app model : string) : World :=
  mkWorld app model ∅ (mkContainer false ∅ [] ∅) None ∅ [].

(** ** The worlds the handlers leave *)

(** The status is set to [s], and [then_] is logged after it. *)
Definition status_set (s : Status) (then_ : list Action) (w : World) : World :=
  mkWorld (app_name w) (model_name w) (relations w) (container w) (Some s)
          (nrf_relation_data w) (trace w ++ StatusSet s :: then_).

(** The layers after [add_layer("nrf", _pebble_layer, combine=True)]. *)
Definition layers_with_nrf (ls : list (string * Layer)) : list (string * Layer) :=
  if Pebble.has_label "nrf" ls
  then Pebble.update_label "nrf" NRFOperatorCharm._pebble_layer ls
  else ls ++ [("nrf", NRFOperatorCharm._pebble_layer)].

(** The plan is applied, the unit is active and the endpoint published. *)
Definition converged (w : World) : World :=
  let ls := layers_with_nrf (layers (container w)) in
  mkWorld (app_name w) (model_name w) (relations w)
    (mkContainer (reachable (container w)) (files (container w)) ls
       (active (container w) ∪ Pebble.autostart (Pebble.plan ls)))
    (Some (ActiveStatus EmptyString))
    (<["url" := published_endpoint w]> (nrf_relation_data w))
    (trace w ++
     [ LayerAdded "nrf" NRFOperatorCharm._pebble_layer true; Replanned;
       StatusSet (ActiveStatus EmptyString); InfoSet (published_endpoint w) ]).

(** The endpoint is published and nothing else changes. *)
Definition endpoint_published (w : World) : World :=
  mkWorld (app_name w) (model_name w) (relations w) (container w)
    (unit_status w)
    (<["url" := published_endpoint w]> (nrf_relation_data w))
    (trace w ++ [InfoSet (published_endpoint w)]).

(** The configuration file holds [content]. *)
Definition config_written (content : string) (w : World) : World :=
  mkWorld (app_name w) (model_name w) (relations w)
    (mkContainer (reachable (container w))
       (<["/etc/nrf/nrfcfg.yaml" := content]> (files (container w)))
       (layers (container w)) (active (container w)))
    (unit_status w) (nrf_relation_data w)
    (trace w ++ [Pushed "/etc/nrf/nrfcfg.yaml" content]).

(** The template rendered for a database URL. *)
Definition nrfcfg (database_url : string) : string :=
  render nrfcfg_yaml_j2
    (<["database_name" := "free5gc"]> (<["database_url" := database_url]> ∅)).

(** The text the unit test expects [push] to be called with
    ([tests/unit/test_charm.py]), line by line, for the first URI
    [uri_0]. *)
Definition expected_source (uri_0 : string) : string :=
  String.concat newline
  [
    "configuration:"; "  DefaultPlmnId:";
    "    mcc: " +:+ dquote +:+ "208" +:+ dquote;
    "    mnc: " +:+ dquote +:+ "93" +:+ dquote; "  MongoDBName: free5gc";
    "  MongoDBUrl: " +:+ uri_0; "  mongoDBStreamEnable: true"; "  mongodb:";
    "    name: free5gc"; "    url: " +:+ uri_0; "  nfKeepAliveTime: 60";
    "  nfProfileExpiryEnable: true"; "  sbi:"; "    bindingIPv4: 0.0.0.0";
    "    port: 29510"; "    registerIPv4: nrf"; "    scheme: http";
    "  serviceNameList:"; "  - nnrf-nfm"; "  - nnrf-disc"; "info:";
    "  description: NRF initial local configuration"; "  version: 1.0.0";
    "logger:"; "  AMF:"; "    ReportCaller: false"; "    debugLevel: info";
    "  AUSF:"; "    ReportCaller: false"; "    debugLevel: info"; "  Aper:";
    "    ReportCaller: false"; "    debugLevel: info";
    "  CommonConsumerTest:"; "    ReportCaller: false";
    "    debugLevel: info"; "  FSM:"; "    ReportCaller: false";
    "    debugLevel: info"; "  MongoDBLibrary:"; "    ReportCaller: false";
    "    debugLevel: info"; "  N3IWF:"; "    ReportCaller: false";
    "    debugLevel: info"; "  NAS:"; "    ReportCaller: false";
    "    debugLevel: info"; "  NGAP:"; "    ReportCaller: false";
    "    debugLevel: info"; "  NRF:"; "    ReportCaller: false";
    "    debugLevel: info"; "  NamfComm:"; "    ReportCaller: false";
    "    debugLevel: info"; "  NamfEventExposure:";
    "    ReportCaller: false"; "    debugLevel: info"; "  NsmfPDUSession:";
    "    ReportCaller: false"; "    debugLevel: info";
    "  NudrDataRepository:"; "    ReportCaller: false";
    "    debugLevel: info"; "  OpenApi:"; "    ReportCaller: false";
    "    debugLevel: info"; "  PCF:"; "    ReportCaller: false";
    "    debugLevel: info"; "  PFCP:"; "    ReportCaller: false";
    "    debugLevel: info"; "  PathUtil:"; "    ReportCaller: false";
    "    debugLevel: info"; "  SMF:"; "    ReportCaller: false";
    "    debugLevel: info"; "  UDM:"; "    ReportCaller: false";
    "    debugLevel: info"; "  UDR:"; "    ReportCaller: false";
    "    debugLevel: info"; "  WEBUI:"; "    ReportCaller: false";
    "    debugLevel: info"
  ].

(** A URI holds no comma. *)
Fixpoint comma_free (s : string) : bool :=
  match s with
  | EmptyString => true
  | String c r => negb (Ascii.eqb c comma) && comma_free r
  end.

(** [",".join(l)]. *)
Definition join_commas (l : list string) : string := String.concat "," l.

(** The invariant of an execution: the log has every [add_layer] after a
    [push] of the configuration file, and a configuration file in the
    container was pushed. *)
Definition config_before_plan (w : World) : Prop :=
  written_before_applied false (trace w) = true /\
  (config_file_present w -> config_pushed (trace w) = true).

(** ** Sample worlds *)

Definition sample_world (database : bool) (connected : bool) (config : bool)
    : World :=
  mkWorld "nrf" "core"
    (if database then {[ "database" := [0] ]} else ∅)
    (mkContainer connected
       (if config then {[ "/etc/nrf/nrfcfg.yaml" := "configuration:" ]} else ∅)
       [] ∅)
    None ∅ [].

(** Two relations sit on the database endpoint. *)
Definition crowded_world : World :=
  mkWorld "nrf" "core" {[ "database" := [0; 1] ]}
    (mkContainer true
       {[ "/etc/nrf/nrfcfg.yaml" := "configuration:" ]} [] ∅)
    None ∅ [].

(** The service is declared and started. *)
Definition running_world : World :=
  after (NRFOperatorCharm._on_nrf_pebble_ready nrf_pebble_ready)
        (sample_world true true true).

(** The URI list of the unit test. *)
Definition sample_uris : list string := ["1.2.3.4:1234"; "5.6.7.8:1111"].

Definition sample_steps : list Step :=
  [ RelationCreated "database" 0;
    Deliver database_relation_joined;
    Reachability true;
    Deliver nrf_pebble_ready;
    Deliver (database_created (Some "1.2.3.4:1234,5.6.7.8:1111")) ].

(** ** Order in a log *)

(** Every call picked by [target] comes after a call picked by [cause], or
    [seen] holds when the log starts. *)
Fixpoint each_preceded (cause target : Action -> bool) (seen : bool)
    (log : list Action) : bool :=
  match log with
  | [] => true
  | a :: r =>
      (negb (target a) || seen)
      && each_preceded cause target (seen || cause a) r
  end.

Definition is_layer_added (a : Action) : bool :=
  match a with LayerAdded _ _ _ => true | _ => false end.

Definition is_info_set (a : Action) : bool :=
  match a with InfoSet _ => true | _ => false end.

(** The step delivers a database-created event. *)
Definition delivers_database_created (s : Step) : bool :=
  match s with Deliver (database_created _) => true | _ => false end.

(** The status the unit shows is the last one written. *)
Definition status_is_last_written (w : World) : Prop :=
  unit_status w = last (status_writes (trace w)) /\
  Forall (fun s => s ∈ charm_statuses) (status_writes (trace w)).

(** The endpoint a world publishes is [endpoint], the log publishes nothing
    else, every publication in the log comes after an [add_layer], and
    layers in the container were added by a handler. *)
Definition publishes_after_plan (endpoint : string) (w : World) : Prop :=
  published_endpoint w = endpoint /\
  Forall (fun a => forall url, a = InfoSet url -> url = endpoint) (trace w) /\
  each_preceded is_layer_added is_info_set false (trace w) = true /\
  (layers (container w) <> [] -> existsb is_layer_added (trace w) = true).

(** Calls that neither write the file nor apply the plan nor go Active. *)
Definition quiet (a : Action) : bool :=
  match a with
  | LayerAdded _ _ _ | Pushed _ _ | Replanned => false
  | StatusSet (ActiveStatus _) => false
  | _ => true
  end.

(** Calls on the status sink and the event, none on Pebble or a relation. *)
Definition is_status_or_defer (a : Action) : bool :=
  match a with StatusSet _ | Deferred _ => true | _ => false end.

(** * Properties *)

Import NRFOperatorCharm.

(** Symbolic evaluation of a handler on a world given by its fields. *)
Ltac unfold_charm :=
  cbv [_on_nrf_pebble_ready _on_database_created _on_nrf_relation_joined
       _nrf_service_is_running _update_nrf_relation _nrf_url
       _database_relation_is_created _relation_created _config_file_is_written
       _write_config_file dispatch uris
       get_relation can_connect exists_ push add_layer replan get_service
       set_unit_status defer set_info pebble_call is_running
       gets modify raise try_except record with_container with_status
       with_nrf_relation_data
       status_set converged endpoint_published config_written layers_with_nrf
       mbind mret fmap Handler_bind Handler_ret Handler_fmap
       outcome after fst snd negb
       database_relation_present database_relation_absent
       database_relations_several runtime_reachable config_file_present
       published_endpoint
       app_name model_name relations container unit_status nrf_relation_data
       trace reachable files layers active current_active service_name].

Ltac destruct_world w :=
  destruct w as [an mn rel [rch fs ls act] st nd tr].

Ltac same_world := rewrite <- ?app_assoc; reflexivity.

(** ** Pebble layers *)

Lemma pebble_layer_services :
  services _pebble_layer = {[ "nrf" := nrf_service ]}.
Proof. reflexivity. Qed.

Lemma combine_pebble_layer (old : gmap string Service) :
  Pebble.combine_services old (services _pebble_layer)
  = <["nrf" := nrf_service]> old.
Proof.
  rewrite pebble_layer_services. unfold Pebble.combine_services.
  apply map_eq; intros k. rewrite lookup_union_with.
  destruct (decide (k = "nrf")) as [->|Hk].
  - rewrite lookup_singleton_eq, lookup_insert_eq.
    destruct (old !! "nrf"); reflexivity.
  - rewrite lookup_singleton_ne, lookup_insert_ne by congruence.
    destruct (old !! k); reflexivity.
Qed.

Lemma combine_pebble_layer_twice (old : Layer) :
  Pebble.combine_layers (Pebble.combine_layers old _pebble_layer) _pebble_layer
  = Pebble.combine_layers old _pebble_layer.
Proof.
  unfold Pebble.combine_layers; cbn [summary description services].
  rewrite !combine_pebble_layer, insert_insert_eq. reflexivity.
Qed.

Lemma update_label_twice label ls :
  Pebble.update_label label _pebble_layer
    (Pebble.update_label label _pebble_layer ls)
  = Pebble.update_label label _pebble_layer ls.
Proof.
  induction ls as [|[l old] r IH]; cbn [Pebble.update_label]; [reflexivity|].
  destruct (String.eqb l label) eqn:E; cbn [Pebble.update_label]; rewrite E.
  - rewrite combine_pebble_layer_twice. reflexivity.
  - rewrite IH. reflexivity.
Qed.

Lemma has_label_update label L ls :
  Pebble.has_label label (Pebble.update_label label L ls)
  = Pebble.has_label label ls.
Proof.
  induction ls as [|[l old] r IH]; cbn [Pebble.update_label Pebble.has_label];
    [reflexivity|].
  destruct (String.eqb l label) eqn:E; cbn [Pebble.has_label]; rewrite E;
    [reflexivity|]. cbn. exact IH.
Qed.

Lemma has_label_snoc label L ls :
  Pebble.has_label label (ls ++ [(label, L)]) = true.
Proof.
  induction ls as [|[l old] r IH]; cbn [Pebble.has_label app].
  - rewrite String.eqb_refl. reflexivity.
  - rewrite IH. apply orb_true_r.
Qed.

Lemma update_label_snoc label ls :
  Pebble.has_label label ls = false ->
  Pebble.update_label label _pebble_layer (ls ++ [(label, _pebble_layer)])
  = (ls ++ [(label, _pebble_layer)])%list.
Proof.
  induction ls as [|[l old] r IH]; cbn [Pebble.has_label Pebble.update_label app].
  - intros _. rewrite String.eqb_refl. reflexivity.
  - intros H. apply orb_false_iff in H as [-> H]. rewrite (IH H). reflexivity.
Qed.

Lemma update_label_lookup label ls :
  Pebble.has_label label ls = true ->
  exists L, (label, L) ∈ Pebble.update_label label _pebble_layer ls /\
            services L !! "nrf" = Some nrf_service.
Proof.
  induction ls as [|[l old] r IH]; cbn [Pebble.has_label Pebble.update_label];
    [discriminate|].
  destruct (String.eqb l label) eqn:E.
  - intros _. apply String.eqb_eq in E as ->.
    exists (Pebble.combine_layers old _pebble_layer). split; [left|].
    unfold Pebble.combine_layers; cbn [services].
    rewrite combine_pebble_layer, lookup_insert_eq. reflexivity.
  - cbn. intros H. destruct (IH H) as (L & ? & ?). exists L.
    split; [by right|done].
Qed.

(** Adding the layer a second time changes nothing. *)
Lemma layers_with_nrf_twice ls :
  layers_with_nrf (layers_with_nrf ls) = layers_with_nrf ls.
Proof.
  unfold layers_with_nrf at 2 3. destruct (Pebble.has_label "nrf" ls) eqn:E.
  - unfold layers_with_nrf. rewrite has_label_update, E.
    apply update_label_twice.
  - unfold layers_with_nrf. rewrite has_label_snoc.
    apply update_label_snoc, E.
Qed.

Lemma layers_with_nrf_lookup ls :
  exists L, ("nrf", L) ∈ layers_with_nrf ls /\
            services L !! "nrf" = Some nrf_service.
Proof.
  unfold layers_with_nrf. destruct (Pebble.has_label "nrf" ls) eqn:E.
  - apply update_label_lookup, E.
  - exists _pebble_layer. split; [|reflexivity].
    apply elem_of_app. right. apply list_elem_of_singleton. reflexivity.
Qed.

(** ** The handlers, case by case *)

Lemma new_actions_app {A} (m : Handler A) (w : World) (new : list Action) :
  trace (after m w) = (trace w ++ new)%list -> new_actions m w = new.
Proof. unfold new_actions. intros ->. apply drop_app_length. Qed.

Lemma pebble_ready_blocked event w :
  database_relation_absent w ->
  _on_nrf_pebble_ready event w =
    (Return tt,
     status_set (BlockedStatus "Waiting for database relation to be created")
       [] w).
Proof. destruct_world w. unfold_charm. intros ->. reflexivity. Qed.

Lemma pebble_ready_several event w :
  database_relations_several w ->
  _on_nrf_pebble_ready event w = (Raise TooManyRelatedAppsError, w).
Proof.
  destruct_world w. unfold_charm. intros H.
  destruct (relations_on "database" _) as [|r1 [|r2 rs]]; cbn in H;
    [lia|lia|reflexivity].
Qed.

Lemma pebble_ready_unreachable event w :
  database_relation_present w ->
  ~ runtime_reachable w ->
  _on_nrf_pebble_ready event w =
    (Return tt,
     status_set (WaitingStatus "Waiting for container to be ready")
       [Deferred event] w).
Proof.
  destruct_world w. unfold_charm.
  intros [r ->] H. destruct rch; [destruct H; reflexivity|]. same_world.
Qed.

Lemma pebble_ready_no_config event w :
  database_relation_present w ->
  runtime_reachable w ->
  ~ config_file_present w ->
  _on_nrf_pebble_ready event w =
    (Return tt,
     status_set (WaitingStatus "Waiting for config file to be written") [] w).
Proof.
  destruct_world w. unfold_charm.
  intros [r ->] -> H. rewrite (bool_decide_eq_false_2 _ H). reflexivity.
Qed.

Lemma pebble_ready_converged event w :
  database_relation_present w ->
  runtime_reachable w ->
  config_file_present w ->
  _on_nrf_pebble_ready event w = (Return tt, converged w).
Proof.
  destruct_world w. unfold_charm.
  intros [r ->] -> Hf. rewrite (bool_decide_eq_true_2 _ Hf).
  destruct (Pebble.has_label "nrf" ls); same_world.
Qed.

Lemma database_created_unreachable event w :
  ~ runtime_reachable w ->
  _on_database_created event w =
    (Return tt,
     status_set (WaitingStatus "Waiting for container to be ready")
       [Deferred event] w).
Proof.
  destruct_world w. unfold_charm.
  intros H. destruct rch; [destruct H; reflexivity|]. same_world.
Qed.

Lemma split_nonempty sep s : split sep s <> [].
Proof.
  destruct s as [|c r]; cbn [split]; [discriminate|].
  destruct (Ascii.eqb c sep); [discriminate|].
  destruct (split sep r); discriminate.
Qed.

Lemma database_created_reachable u w :
  runtime_reachable w ->
  _on_database_created (database_created (Some u)) w =
    _on_nrf_pebble_ready (database_created (Some u))
      (config_written (nrfcfg (hd EmptyString (split comma u))) w).
Proof.
  destruct_world w. unfold runtime_reachable. cbn [container reachable].
  intros ->. pose proof (split_nonempty comma u) as Hne.
  unfold _on_database_created, uris, _write_config_file, can_connect, push,
    pebble_call, gets, modify, mbind, mret, Handler_bind, Handler_ret.
  cbn [container reachable negb].
  destruct (split comma u) as [|database_url rest]; [congruence|].
  cbn [container reachable hd]. reflexivity.
Qed.

Lemma database_created_no_uris event w :
  runtime_reachable w ->
  (forall u, event <> database_created (Some u)) ->
  _on_database_created event w = (Raise AttributeError, w).
Proof.
  destruct_world w. unfold_charm. intros -> H.
  destruct event as [| | |[u|]]; try reflexivity. destruct (H u). reflexivity.
Qed.

(** Whether the service is running, as the handler finds it. *)
Lemma nrf_service_is_running_eq w :
  _nrf_service_is_running w =
    (Return (reachable (container w)
             && bool_decide (is_Some (Pebble.plan (layers (container w)) !! "nrf"))
             && bool_decide ("nrf" ∈ active (container w))), w).
Proof.
  destruct_world w. unfold_charm. destruct rch; [|reflexivity].
  cbv [_service_name]. 
  destruct (Pebble.plan ls !! "nrf") as [s|] eqn:E.
  - rewrite (bool_decide_eq_true_2 (is_Some (Some s))) by eauto.
    destruct (bool_decide ("nrf" ∈ act)); reflexivity.
  - rewrite (bool_decide_eq_false_2 (is_Some None)) by (intros [? ?]; discriminate).
    reflexivity.
Qed.

Lemma relation_joined_not_running event w :
  outcome _nrf_service_is_running w = Return false ->
  _on_nrf_relation_joined event w = (Return tt, w).
Proof.
  unfold outcome. rewrite nrf_service_is_running_eq. cbn [fst]. intros H.
  unfold _on_nrf_relation_joined, mbind, Handler_bind.
  rewrite nrf_service_is_running_eq. injection H as ->. reflexivity.
Qed.

Lemma relation_joined_running event w :
  outcome _nrf_service_is_running w = Return true ->
  _on_nrf_relation_joined event w = (Return tt, endpoint_published w).
Proof.
  unfold outcome. rewrite nrf_service_is_running_eq. cbn [fst]. intros H.
  unfold _on_nrf_relation_joined, mbind, Handler_bind.
  rewrite nrf_service_is_running_eq. injection H as ->.
  destruct_world w. reflexivity.
Qed.

(** ** Splitting the URI list *)

Lemma split_String sep c r :
  split sep (String c r) =
    if Ascii.eqb c sep then EmptyString :: split sep r
    else match split sep r with
         | [] => [String c EmptyString]
         | h :: t => String c h :: t
         end.
Proof. reflexivity. Qed.

Lemma split_comma_free u : comma_free u = true -> split comma u = [u].
Proof.
  induction u as [|c r IH]; [reflexivity|].
  cbn [comma_free]. intros H. apply andb_true_iff in H as [Hc Hr].
  apply negb_true_iff in Hc. rewrite split_String, Hc, (IH Hr). reflexivity.
Qed.

Lemma split_first u s :
  comma_free u = true ->
  split comma (u +:+ String comma s) = u :: split comma s.
Proof.
  induction u as [|c r IH]; [reflexivity|].
  cbn [comma_free]. intros H. apply andb_true_iff in H as [Hc Hr].
  apply negb_true_iff in Hc.
  change (String c r +:+ String comma s) with (String c (r +:+ String comma s)).
  rewrite split_String, Hc, (IH Hr). reflexivity.
Qed.

Lemma first_uri first others :
  comma_free first = true ->
  hd EmptyString (split comma (join_commas (first :: others))) = first.
Proof.
  intros H. unfold join_commas. destruct others as [|second rest].
  - cbn [String.concat]. rewrite (split_comma_free _ H). reflexivity.
  - change (String.concat "," (first :: second :: rest))
      with (first +:+ String comma (String.concat "," (second :: rest))).
    rewrite (split_first _ _ H). reflexivity.
Qed.

(** ** Scanning the log *)

Lemma written_before_applied_mono seen log :
  written_before_applied seen log = true ->
  written_before_applied true log = true.
Proof.
  revert seen. induction log as [|a r IH]; intros seen; [reflexivity|].
  destruct a; cbn [written_before_applied orb andb]; eauto.
  destruct seen; [auto|discriminate].
Qed.

Lemma written_before_applied_app seen l1 l2 :
  written_before_applied seen (l1 ++ l2) =
    written_before_applied seen l1
    && written_before_applied (seen || config_pushed l1) l2.
Proof.
  revert seen. induction l1 as [|a r IH]; intros seen.
  - cbn. rewrite orb_false_r. reflexivity.
  - destruct a; cbn [app written_before_applied config_pushed]; rewrite ?IH;
      try reflexivity.
    + rewrite orb_assoc. reflexivity.
    + rewrite andb_assoc. reflexivity.
Qed.

Lemma config_pushed_app l1 l2 :
  config_pushed (l1 ++ l2) = config_pushed l1 || config_pushed l2.
Proof.
  induction l1 as [|a r IH]; [reflexivity|].
  destruct a; cbn [app config_pushed]; rewrite ?IH; try reflexivity.
  rewrite orb_assoc. reflexivity.
Qed.

Lemma config_pushed_elem log :
  config_pushed log = true ->
  exists source, Pushed "/etc/nrf/nrfcfg.yaml" source ∈ log.
Proof.
  induction log as [|a r IH]; cbn [config_pushed]; [discriminate|].
  destruct a as [| |path source| | |];
    try (intros H; destruct (IH H) as [src Hsrc]; exists src; by right).
  intros H. apply orb_true_iff in H as [H|H].
  - apply String.eqb_eq in H as ->. exists source. left.
  - destruct (IH H) as [src Hsrc]. exists src. by right.
Qed.

Lemma written_before_applied_split seen pre label layer combine post :
  written_before_applied seen (pre ++ LayerAdded label layer combine :: post)
    = true ->
  seen = true \/ config_pushed pre = true.
Proof.
  rewrite written_before_applied_app. cbn [written_before_applied].
  intros H. apply andb_true_iff in H as [_ H].
  apply andb_true_iff in H as [H _]. apply orb_true_iff in H. exact H.
Qed.

(** ** What every delivery does to the files and the log *)

Lemma status_set_trace s then_ w :
  trace (status_set s then_ w) = (trace w ++ StatusSet s :: then_)%list.
Proof. reflexivity. Qed.

Lemma config_file_present_dec w :
  config_file_present w \/ ~ config_file_present w.
Proof.
  unfold config_file_present.
  destruct (files (container w) !! "/etc/nrf/nrfcfg.yaml");
    [left; eauto|right; intros [? ?]; discriminate].
Qed.

Lemma database_relations_cases w :
  database_relation_absent w \/ database_relation_present w \/
  database_relations_several w.
Proof.
  unfold database_relation_absent, database_relation_present,
    database_relations_several.
  destruct (relations_on "database" w) as [|r1 [|r2 rs]];
    [left; reflexivity|right; left; eauto|right; right; cbn; lia].
Qed.

Lemma runtime_reachable_dec w : runtime_reachable w \/ ~ runtime_reachable w.
Proof.
  unfold runtime_reachable. destruct (reachable (container w)); auto.
Qed.

(** The four ways a convergence pass ends. *)
Lemma pebble_ready_cases event w :
  (database_relations_several w /\
   _on_nrf_pebble_ready event w = (Raise TooManyRelatedAppsError, w)) \/
  (database_relation_absent w /\
   _on_nrf_pebble_ready event w =
     (Return tt,
      status_set (BlockedStatus "Waiting for database relation to be created")
        [] w)) \/
  (database_relation_present w /\ ~ runtime_reachable w /\
   _on_nrf_pebble_ready event w =
     (Return tt,
      status_set (WaitingStatus "Waiting for container to be ready")
        [Deferred event] w)) \/
  (database_relation_present w /\ runtime_reachable w /\
   ~ config_file_present w /\
   _on_nrf_pebble_ready event w =
     (Return tt,
      status_set (WaitingStatus "Waiting for config file to be written")
        [] w)) \/
  (database_relation_present w /\ runtime_reachable w /\
   config_file_present w /\
   _on_nrf_pebble_ready event w = (Return tt, converged w)).
Proof.
  destruct (database_relations_cases w) as [Hd|[Hd|Hd]];
    [right; left; eauto using pebble_ready_blocked|
    |left; eauto using pebble_ready_several].
  right; right.
  destruct (runtime_reachable_dec w) as [Hr|Hr];
    [|left; eauto using pebble_ready_unreachable].
  destruct (config_file_present_dec w) as [Hf|Hf].
  - right; right. eauto using pebble_ready_converged.
  - right; left. eauto using pebble_ready_no_config.
Qed.

(** A convergence pass adds the layer only over a present file, and leaves
    the files as they are. *)
Lemma pebble_ready_effect event w :
  exists new,
    trace (after (_on_nrf_pebble_ready event) w) = (trace w ++ new)%list /\
    written_before_applied (bool_decide (config_file_present w)) new = true /\
    config_pushed new = false /\
    files (container (after (_on_nrf_pebble_ready event) w))
      = files (container w).
Proof.
  unfold after.
  destruct (pebble_ready_cases event w)
    as [(_ & ->)|[(_ & ->)|[(_ & _ & ->)|[(_ & _ & _ & ->)
       |(_ & _ & Hf & ->)]]]];
    cbn [snd];
    [exists []; rewrite app_nil_r; repeat split; reflexivity| ..];
    eexists; (split; [reflexivity|]); try (split; [reflexivity|]);
    try (split; reflexivity).
  split; [|split; reflexivity].
  rewrite (bool_decide_eq_true_2 _ Hf). reflexivity.
Qed.

Lemma dispatch_effect event w :
  exists new,
    trace (after (dispatch event) w) = (trace w ++ new)%list /\
    written_before_applied (bool_decide (config_file_present w)) new = true /\
    (config_file_present (after (dispatch event) w) <->
     config_file_present w \/ config_pushed new = true).
Proof.
  assert (Hready : forall e,
    exists new,
      trace (after (_on_nrf_pebble_ready e) w) = (trace w ++ new)%list /\
      written_before_applied (bool_decide (config_file_present w)) new = true /\
      (config_file_present (after (_on_nrf_pebble_ready e) w) <->
       config_file_present w \/ config_pushed new = true)).
  { intros e. destruct (pebble_ready_effect e w) as (new & Ht & Hs & Hp & Hf).
    exists new. split; [exact Ht|]. split; [exact Hs|].
    unfold config_file_present at 1. rewrite Hf, Hp. unfold config_file_present.
    split; [auto|]. intros [H|H]; [exact H|discriminate]. }
  destruct event as [| | |[u|]]; cbn [dispatch]; try apply Hready.
  - (* nrf_relation_joined *)
    unfold after. destruct (outcome _nrf_service_is_running w) as [[|]|] eqn:E.
    + rewrite (relation_joined_running _ _ E).
      exists [InfoSet (published_endpoint w)].
      split; [reflexivity|]. split; [reflexivity|].
      split; [auto|]. intros [H|H]; [exact H|discriminate].
    + rewrite (relation_joined_not_running _ _ E). exists [].
      split; [cbn [snd]; rewrite app_nil_r; reflexivity|].
      split; [reflexivity|].
      split; [auto|]. intros [H|H]; [exact H|discriminate].
    + unfold outcome in E. rewrite nrf_service_is_running_eq in E. discriminate.
  - (* database_created *)
    destruct (runtime_reachable_dec w) as [Hr|Hr].
    + unfold after. rewrite (database_created_reachable _ _ Hr).
      set (w1 := config_written _ w).
      destruct (pebble_ready_effect (database_created (Some u)) w1)
        as (new & Ht & Hs & Hp & Hf).
      unfold after in Ht, Hf.
      exists (Pushed "/etc/nrf/nrfcfg.yaml"
                (nrfcfg (hd EmptyString (split comma u))) :: new).
      split; [rewrite Ht; unfold w1, config_written; cbn [trace]; same_world|].
      split.
      * cbn [written_before_applied]. rewrite orb_true_r.
        eapply written_before_applied_mono, Hs.
      * split; [intros _; right; reflexivity|]. intros _.
        unfold config_file_present. rewrite Hf. unfold w1, config_written.
        cbn [container files]. rewrite lookup_insert_eq. eauto.
    + unfold after. rewrite (database_created_unreachable _ _ Hr).
      eexists. split; [reflexivity|]. split; [reflexivity|].
      split; [auto|]. intros [H|H]; [exact H|discriminate].
  - (* database_created without URIs *)
    destruct (runtime_reachable_dec w) as [Hr|Hr]; unfold after.
    + rewrite (database_created_no_uris _ _ Hr) by discriminate. exists [].
      split; [cbn [snd]; rewrite app_nil_r; reflexivity|].
      split; [reflexivity|].
      split; [auto|]. intros [H|H]; [exact H|discriminate].
    + rewrite (database_created_unreachable _ _ Hr).
      eexists. split; [reflexivity|]. split; [reflexivity|].
      split; [auto|]. intros [H|H]; [exact H|discriminate].
Qed.

Lemma step_config_before_plan s w :
  config_before_plan w -> config_before_plan (step s w).
Proof.
  intros [Hlog Hfile]. destruct s as [event|b|name id|name|path|name];
    try (split; [exact Hlog|exact Hfile]).
  - cbn [step]. destruct (dispatch_effect event w) as (new & Ht & Hs & Hf).
    split.
    + rewrite Ht, written_before_applied_app, Hlog. cbn [andb orb].
      destruct (config_file_present_dec w) as [Hp|Hp].
      * rewrite (Hfile Hp). eapply written_before_applied_mono, Hs.
      * rewrite (bool_decide_eq_false_2 _ Hp) in Hs.
        destruct (config_pushed (trace w));
          [eapply written_before_applied_mono|]; exact Hs.
    + intros Hp. rewrite Ht, config_pushed_app.
      destruct (proj1 Hf Hp) as [H|H];
        [rewrite (Hfile H)|rewrite H, orb_true_r]; reflexivity.
  - split; [exact Hlog|]. intros Hp. apply Hfile.
    destruct w as [an mn rel [rch fs ls act] st nd tr].
    revert Hp. unfold config_file_present. cbn [step with_container container files].
    intros [x Hx]. apply lookup_delete_Some in Hx as [_ Hx]. eauto.
Qed.

Lemma run_config_before_plan steps w :
  config_before_plan w -> config_before_plan (run steps w).
Proof.
  revert w. induction steps as [|s r IH]; intros w H; [exact H|].
  cbn [run foldl]. apply IH, step_config_before_plan, H.
Qed.

(** ** The log of a handler run *)

Lemma absent_not_several w :
  database_relation_absent w -> length (relations_on "database" w) <= 1.
Proof. intros ->. cbn. lia. Qed.

Lemma present_not_several w :
  database_relation_present w -> length (relations_on "database" w) <= 1.
Proof. intros [r ->]. cbn. lia. Qed.

Lemma pebble_ready_log event w :
  (database_relations_several w /\
   _on_nrf_pebble_ready event w = (Raise TooManyRelatedAppsError, w)) \/
  (length (relations_on "database" w) <= 1 /\
   exists new s,
     outcome (_on_nrf_pebble_ready event) w = Return tt /\
     trace (after (_on_nrf_pebble_ready event) w) = (trace w ++ new)%list /\
     status_writes new = [s] /\ s ∈ charm_statuses).
Proof.
  unfold after, outcome.
  destruct (pebble_ready_cases event w)
    as [(Hd & ->)|[(Hd & ->)|[(Hd & _ & ->)|[(Hd & _ & _ & ->)
       |(Hd & _ & _ & ->)]]]];
    [left; auto| right ..];
    (split; [first [apply absent_not_several, Hd
                   |apply present_not_several, Hd]|]);
    cbn [fst snd]; do 2 eexists; (split; [reflexivity|]);
    (split; [reflexivity|]); (split; [reflexivity|]);
    unfold charm_statuses; set_solver.
Qed.

Lemma database_created_log event w :
  exists new,
    trace (after (_on_database_created event) w) = (trace w ++ new)%list /\
    length (status_writes new) <= 1 /\
    Forall (fun s => s ∈ charm_statuses) (status_writes new) /\
    ((exists u, event = database_created (Some u)) ->
     length (relations_on "database" w) <= 1 ->
     outcome (_on_database_created event) w = Return tt).
Proof.
  destruct (runtime_reachable_dec w) as [Hr|Hr].
  - destruct event as [| | |[u|]];
      try (unfold after, outcome;
           rewrite (database_created_no_uris _ _ Hr) by discriminate;
           exists []; cbn [fst snd]; rewrite app_nil_r;
           split; [reflexivity|]; split; [cbn; lia|];
           split; [constructor|]; intros [u Hu]; discriminate).
    unfold after, outcome. rewrite (database_created_reachable _ _ Hr).
    set (w1 := config_written _ w).
    destruct (pebble_ready_log (database_created (Some u)) w1)
      as [(Hd & Hraise)|(_ & new & s & Ho & Ht & Hs & Hin)].
    + rewrite Hraise. cbn [fst snd].
      exists [Pushed "/etc/nrf/nrfcfg.yaml"
                (nrfcfg (hd EmptyString (split comma u)))].
      split; [reflexivity|]. split; [cbn; lia|]. split; [constructor|].
      intros _ Hle. unfold database_relations_several in Hd.
      change (relations_on "database" w1)
        with (relations_on "database" w) in Hd. lia.
    + unfold after, outcome in Ho, Ht.
      exists (Pushed "/etc/nrf/nrfcfg.yaml"
                (nrfcfg (hd EmptyString (split comma u))) :: new).
      split; [rewrite Ht; unfold w1, config_written; cbn [trace]; same_world|].
      change (status_writes (Pushed "/etc/nrf/nrfcfg.yaml"
                (nrfcfg (hd EmptyString (split comma u))) :: new))
        with (status_writes new).
      rewrite Hs. split; [cbn; lia|].
      split; [constructor; [exact Hin|constructor]|].
      intros _ _. exact Ho.
  - unfold after, outcome. rewrite (database_created_unreachable _ _ Hr).
    eexists. split; [reflexivity|]. cbn [fst snd].
    split; [cbn; lia|]. split; [|reflexivity]. cbn.
    constructor; [|constructor]. unfold charm_statuses. set_solver.
Qed.

Lemma relation_joined_log event w :
  outcome (_on_nrf_relation_joined event) w = Return tt /\
  (after (_on_nrf_relation_joined event) w = w \/
   after (_on_nrf_relation_joined event) w = endpoint_published w).
Proof.
  unfold after, outcome.
  destruct (outcome _nrf_service_is_running w) as [[|]|] eqn:E.
  - rewrite (relation_joined_running _ _ E). auto.
  - rewrite (relation_joined_not_running _ _ E). auto.
  - unfold outcome in E. rewrite nrf_service_is_running_eq in E. discriminate.
Qed.

(** ** The unit tests, replayed *)

Example test_config_file_is_written :
  let w := after (_on_database_created
                    (database_created (Some (join_commas sample_uris))))
                 (sample_world false true false) in
  exists source,
    trace w !! 0 = Some (Pushed "/etc/nrf/nrfcfg.yaml" source) /\
    files (container w) !! "/etc/nrf/nrfcfg.yaml" = Some source /\
    String.length source = 1684 /\
    take 6 (split "010"%char source) =
      [ "configuration:"; "  DefaultPlmnId:";
        "    mcc: " +:+ dquote +:+ "208" +:+ dquote;
        "    mnc: " +:+ dquote +:+ "93" +:+ dquote;
        "  MongoDBName: free5gc"; "  MongoDBUrl: 1.2.3.4:1234" ].
Proof. eexists. vm_compute. repeat split. Qed.

Example test_config_file_is_expected_source :
  new_actions (_on_database_created
                 (database_created (Some (join_commas sample_uris))))
              (sample_world false true false)
  = [ Pushed "/etc/nrf/nrfcfg.yaml" (expected_source "1.2.3.4:1234");
      StatusSet (BlockedStatus "Waiting for database relation to be created") ].
Proof. vm_compute. reflexivity. Qed.

Example test_pebble_plan_is_applied :
  let w := after (dispatch nrf_pebble_ready) (sample_world true true true) in
  Pebble.plan (layers (container w)) = {[ "nrf" := nrf_service ]} /\
  unit_status w = Some (ActiveStatus EmptyString).
Proof. vm_compute. split; reflexivity. Qed.

Example test_relation_data_is_not_updated :
  nrf_relation_data
    (after (dispatch nrf_relation_joined) (sample_world false false false))
  = ∅.
Proof. reflexivity. Qed.

(** ** The rendered text *)

Lemma append_empty_r s : s +:+ EmptyString = s.
Proof.
  induction s as [|c r IH]; [reflexivity|].
  change (String c r +:+ EmptyString) with (String c (r +:+ EmptyString)).
  rewrite IH. reflexivity.
Qed.

Lemma render_line_text_var context text name :
  render_line context [Text text; Var name]
  = text +:+ default EmptyString (context !! name).
Proof.
  unfold render_line. cbn [foldr render_segment].
  rewrite append_empty_r. reflexivity.
Qed.

(** The template rendered for a database URL is the text the unit test
    expects, with the URL in the place of its first URI. *)
Lemma nrfcfg_expected database_url :
  nrfcfg database_url = expected_source database_url.
Proof.
  unfold nrfcfg, render, expected_source. f_equal.
  set (context := <["database_name" := "free5gc"]>
                    (<["database_url" := database_url]> ∅)).
  assert (Hurl : context !! "database_url" = Some database_url)
    by (unfold context; rewrite lookup_insert_ne by discriminate;
        apply lookup_insert_eq).
  assert (Hname : context !! "database_name" = Some "free5gc")
    by apply lookup_insert_eq.
  change nrfcfg_yaml_j2 with
    (take 4 nrfcfg_yaml_j2
     ++ [Text "  MongoDBName: "; Var "database_name"]
     :: [Text "  MongoDBUrl: "; Var "database_url"]
     :: take 2 (drop 6 nrfcfg_yaml_j2)
     ++ [Text "    name: "; Var "database_name"]
     :: [Text "    url: "; Var "database_url"]
     :: drop 10 nrfcfg_yaml_j2)%list.
  rewrite !fmap_app, !fmap_cons, !fmap_app, !fmap_cons.
  rewrite !render_line_text_var, Hurl, Hname.
  cbn [default]. reflexivity.
Qed.

(** * The claims *)

(** C1. When the database relation is present, the container can be reached
    and the configuration file is in the container, a convergence pass adds
    the layer labelled nrf with exactly one service entry, named nrf, with
    override replace, startup enabled, the command
    [nrf --nrfcfg /etc/nrf/nrfcfg.yaml] and the five environment variables,
    replans, sets the unit status to Active and publishes the endpoint. *)
Theorem converge_applies_plan (event : Event) (w : World) :
  database_relation_present w ->
  runtime_reachable w ->
  config_file_present w ->
  let w' := after (_on_nrf_pebble_ready event) w in
  outcome (_on_nrf_pebble_ready event) w = Return tt /\
  new_actions (_on_nrf_pebble_ready event) w =
    [ LayerAdded "nrf" _pebble_layer true; Replanned;
      StatusSet (ActiveStatus EmptyString);
      InfoSet ("http://" +:+ app_name w +:+ "." +:+ model_name w
               +:+ ".svc.cluster.local:29510") ] /\
  map_to_list (services _pebble_layer) = [("nrf", nrf_service)] /\
  override nrf_service = "replace" /\
  startup nrf_service = "enabled" /\
  command nrf_service = "nrf --nrfcfg /etc/nrf/nrfcfg.yaml" /\
  size (environment nrf_service) = 5 /\
  environment nrf_service !! "GRPC_GO_LOG_VERBOSITY_LEVEL" = Some "99" /\
  environment nrf_service !! "GRPC_GO_LOG_SEVERITY_LEVEL" = Some "info" /\
  environment nrf_service !! "GRPC_TRACE" = Some "all" /\
  environment nrf_service !! "GRPC_VERBOSITY" = Some "debug" /\
  environment nrf_service !! "MANAGED_BY_CONFIG_POD" = Some "true" /\
  (exists L, ("nrf", L) ∈ layers (container w') /\
             services L !! "nrf" = Some nrf_service) /\
  (layers (container w) = [] ->
   Pebble.plan (layers (container w')) = {[ "nrf" := nrf_service ]}) /\
  active (container w') =
    active (container w)
    ∪ Pebble.autostart (Pebble.plan (layers (container w'))) /\
  unit_status w' = Some (ActiveStatus EmptyString) /\
  nrf_relation_data w' !! "url" =
    Some ("http://" +:+ app_name w +:+ "." +:+ model_name w
          +:+ ".svc.cluster.local:29510").
Proof.
  intros Hdb Hr Hf w'.
  pose proof (pebble_ready_converged event w Hdb Hr Hf) as Hrun.
  assert (Hw' : w' = converged w) by (unfold w', after; rewrite Hrun; reflexivity).
  split; [unfold outcome; rewrite Hrun; reflexivity|].
  split; [apply new_actions_app; fold w'; rewrite Hw'; reflexivity|].
  do 10 (split; [vm_compute; reflexivity|]).
  rewrite Hw'. unfold converged.
  cbn [layers container active unit_status nrf_relation_data].
  split; [apply layers_with_nrf_lookup|].
  split; [intros ->; reflexivity|].
  split; [reflexivity|]. split; [reflexivity|].
  apply lookup_insert_eq.
Qed.

Lemma converge_applies_plan_witness :
  let w := sample_world true true true in
  let w' := after (_on_nrf_pebble_ready nrf_pebble_ready) w in
  database_relation_present w /\ runtime_reachable w /\
  config_file_present w /\
  new_actions (_on_nrf_pebble_ready nrf_pebble_ready) w =
    [ LayerAdded "nrf" _pebble_layer true; Replanned;
      StatusSet (ActiveStatus EmptyString);
      InfoSet "http://nrf.core.svc.cluster.local:29510" ] /\
  Pebble.plan (layers (container w')) = {[ "nrf" := nrf_service ]} /\
  unit_status w' = Some (ActiveStatus EmptyString) /\
  nrf_relation_data w' !! "url" = Some "http://nrf.core.svc.cluster.local:29510".
Proof.
  intros w w'.
  assert (Hdb : database_relation_present w) by (vm_compute; eauto).
  assert (Hr : runtime_reachable w) by reflexivity.
  assert (Hf : config_file_present w) by (vm_compute; eauto).
  destruct (converge_applies_plan nrf_pebble_ready w Hdb Hr Hf)
    as (_ & Hnew & _ & _ & _ & _ & _ & _ & _ & _ & _ & _ & _ & Hplan & _
        & Hst & Hurl).
  split; [exact Hdb|]. split; [exact Hr|]. split; [exact Hf|].
  split; [exact Hnew|]. split; [exact (Hplan eq_refl)|].
  split; [exact Hst|exact Hurl].
Defined.

(** C2. When the database relation is absent, that is no relation sits on
    the database endpoint, a convergence pass sets the unit status to
    Blocked (waiting for the database relation) and returns, whatever the
    rest of the world is: it makes no other call, leaves the container as it
    is and publishes nothing. *)
Theorem converge_without_database_relation (event : Event) (w : World) :
  database_relation_absent w ->
  let w' := after (_on_nrf_pebble_ready event) w in
  outcome (_on_nrf_pebble_ready event) w = Return tt /\
  unit_status w' =
    Some (BlockedStatus "Waiting for database relation to be created") /\
  new_actions (_on_nrf_pebble_ready event) w =
    [StatusSet (BlockedStatus "Waiting for database relation to be created")] /\
  container w' = container w /\
  nrf_relation_data w' = nrf_relation_data w.
Proof.
  intros Hdb w'. pose proof (pebble_ready_blocked event w Hdb) as Hrun.
  unfold w', outcome, new_actions, after. rewrite Hrun. cbn [fst snd].
  rewrite status_set_trace, drop_app_length. auto.
Qed.

Lemma converge_without_database_relation_witness :
  let w := sample_world false true true in
  let w' := after (_on_nrf_pebble_ready nrf_pebble_ready) w in
  database_relation_absent w /\
  outcome (_on_nrf_pebble_ready nrf_pebble_ready) w = Return tt /\
  unit_status w' =
    Some (BlockedStatus "Waiting for database relation to be created") /\
  new_actions (_on_nrf_pebble_ready nrf_pebble_ready) w =
    [StatusSet (BlockedStatus "Waiting for database relation to be created")] /\
  container w' = container w /\
  nrf_relation_data w' = nrf_relation_data w.
Proof.
  intros w w'.
  assert (Hdb : database_relation_absent w) by reflexivity.
  split; [exact Hdb|].
  exact (converge_without_database_relation nrf_pebble_ready w Hdb).
Defined.

(** C3. When the database relation is present and the container cannot be
    reached, a convergence pass sets the unit status to Waiting, defers the
    event it was given and returns: no layer is added, nothing is
    published. *)
Theorem converge_with_unreachable_runtime (event : Event) (w : World) :
  database_relation_present w ->
  ~ runtime_reachable w ->
  let w' := after (_on_nrf_pebble_ready event) w in
  outcome (_on_nrf_pebble_ready event) w = Return tt /\
  unit_status w' = Some (WaitingStatus "Waiting for container to be ready") /\
  new_actions (_on_nrf_pebble_ready event) w =
    [ StatusSet (WaitingStatus "Waiting for container to be ready");
      Deferred event ] /\
  container w' = container w /\
  nrf_relation_data w' = nrf_relation_data w.
Proof.
  intros Hdb Hr w'. pose proof (pebble_ready_unreachable event w Hdb Hr) as Hrun.
  unfold w', outcome, new_actions, after. rewrite Hrun. cbn [fst snd].
  rewrite status_set_trace, drop_app_length. auto.
Qed.

Lemma converge_with_unreachable_runtime_witness :
  let w := sample_world true false true in
  let w' := after (_on_nrf_pebble_ready nrf_pebble_ready) w in
  database_relation_present w /\ ~ runtime_reachable w /\
  outcome (_on_nrf_pebble_ready nrf_pebble_ready) w = Return tt /\
  unit_status w' = Some (WaitingStatus "Waiting for container to be ready") /\
  new_actions (_on_nrf_pebble_ready nrf_pebble_ready) w =
    [ StatusSet (WaitingStatus "Waiting for container to be ready");
      Deferred nrf_pebble_ready ] /\
  container w' = container w /\
  nrf_relation_data w' = nrf_relation_data w.
Proof.
  intros w w'.
  assert (Hdb : database_relation_present w) by (vm_compute; eauto).
  assert (Hr : ~ runtime_reachable w) by (vm_compute; discriminate).
  split; [exact Hdb|]. split; [exact Hr|].
  exact (converge_with_unreachable_runtime nrf_pebble_ready w Hdb Hr).
Defined.

(** C8. When the database relation is present and the container can be
    reached but the configuration file is not in the container, a
    convergence pass sets the unit status to Waiting (waiting for the
    configuration file) and returns: it writes no file, defers nothing, adds
    no layer and publishes nothing. *)
Theorem converge_without_config_file (event : Event) (w : World) :
  database_relation_present w ->
  runtime_reachable w ->
  ~ config_file_present w ->
  let w' := after (_on_nrf_pebble_ready event) w in
  outcome (_on_nrf_pebble_ready event) w = Return tt /\
  unit_status w' =
    Some (WaitingStatus "Waiting for config file to be written") /\
  new_actions (_on_nrf_pebble_ready event) w =
    [StatusSet (WaitingStatus "Waiting for config file to be written")] /\
  container w' = container w /\
  nrf_relation_data w' = nrf_relation_data w.
Proof.
  intros Hdb Hr Hf w'.
  pose proof (pebble_ready_no_config event w Hdb Hr Hf) as Hrun.
  unfold w', outcome, new_actions, after. rewrite Hrun. cbn [fst snd].
  rewrite status_set_trace, drop_app_length. auto.
Qed.

Lemma converge_without_config_file_witness :
  let w := sample_world true true false in
  let w' := after (_on_nrf_pebble_ready nrf_pebble_ready) w in
  database_relation_present w /\ runtime_reachable w /\
  ~ config_file_present w /\
  outcome (_on_nrf_pebble_ready nrf_pebble_ready) w = Return tt /\
  unit_status w' =
    Some (WaitingStatus "Waiting for config file to be written") /\
  new_actions (_on_nrf_pebble_ready nrf_pebble_ready) w =
    [StatusSet (WaitingStatus "Waiting for config file to be written")] /\
  container w' = container w /\
  nrf_relation_data w' = nrf_relation_data w.
Proof.
  intros w w'.
  assert (Hdb : database_relation_present w) by (vm_compute; eauto).
  assert (Hr : runtime_reachable w) by reflexivity.
  assert (Hf : ~ config_file_present w)
    by (vm_compute; intros [r Hx]; discriminate).
  split; [exact Hdb|]. split; [exact Hr|]. split; [exact Hf|].
  exact (converge_without_config_file nrf_pebble_ready w Hdb Hr Hf).
Defined.

(** C4. On a database-created event whose URI list is comma-separated: when
    the container cannot be reached, the unit status is set to Waiting and
    the event is deferred, and no file is written; when it can be reached,
    the text pushed to [/etc/nrf/nrfcfg.yaml] is the one the unit test
    expects, [expected_source], with the first URI of the list in lines 6
    and 10 and every other line fixed, and then the convergence pass runs on
    the world that holds the file. *)
Theorem database_created_writes_config
    (first : string) (others : list string) (w : World) :
  comma_free first = true ->
  let event := database_created (Some (join_commas (first :: others))) in
  let content := expected_source first in
  (~ runtime_reachable w ->
   outcome (_on_database_created event) w = Return tt /\
   unit_status (after (_on_database_created event) w) =
     Some (WaitingStatus "Waiting for container to be ready") /\
   new_actions (_on_database_created event) w =
     [ StatusSet (WaitingStatus "Waiting for container to be ready");
       Deferred event ] /\
   container (after (_on_database_created event) w) = container w) /\
  (runtime_reachable w ->
   _on_database_created event w =
     _on_nrf_pebble_ready event (config_written content w) /\
   new_actions (_on_database_created event) w =
     Pushed "/etc/nrf/nrfcfg.yaml" content
       :: new_actions (_on_nrf_pebble_ready event) (config_written content w) /\
   files (container (after (_on_database_created event) w))
     = <["/etc/nrf/nrfcfg.yaml" := content]> (files (container w))).
Proof.
  intros Hfirst event content. split.
  - intros Hr. pose proof (database_created_unreachable event w Hr) as Hrun.
    unfold outcome, new_actions, after. rewrite Hrun. cbn [fst snd].
    rewrite status_set_trace, drop_app_length. auto.
  - intros Hr.
    assert (Hrun : _on_database_created event w =
              _on_nrf_pebble_ready event (config_written content w)).
    { unfold event, content. rewrite (database_created_reachable _ _ Hr).
      rewrite (first_uri _ _ Hfirst), nrfcfg_expected. reflexivity. }
    split; [exact Hrun|].
    destruct (pebble_ready_effect event (config_written content w))
      as (new & Ht & _ & _ & Hf).
    split.
    + rewrite (new_actions_app _ _ _ Ht).
      apply new_actions_app. unfold after. rewrite Hrun. unfold after in Ht.
      rewrite Ht. unfold config_written; cbn [trace]. same_world.
    + unfold after. rewrite Hrun. exact Hf.
Qed.

Lemma database_created_writes_config_witness :
  let w := sample_world true true false in
  let event := database_created (Some "1.2.3.4:1234,5.6.7.8:1111") in
  comma_free "1.2.3.4:1234" = true /\ runtime_reachable w /\
  new_actions (_on_database_created event) w =
    Pushed "/etc/nrf/nrfcfg.yaml" (expected_source "1.2.3.4:1234")
      :: new_actions (_on_nrf_pebble_ready event)
           (config_written (expected_source "1.2.3.4:1234") w) /\
  files (container (after (_on_database_created event) w))
    = <["/etc/nrf/nrfcfg.yaml" := expected_source "1.2.3.4:1234"]>
        (files (container w)).
Proof.
  intros w event.
  assert (Hc : comma_free "1.2.3.4:1234" = true) by reflexivity.
  assert (Hr : runtime_reachable w) by reflexivity.
  destruct (database_created_writes_config "1.2.3.4:1234" ["5.6.7.8:1111"] w Hc)
    as [_ Hreach].
  destruct (Hreach Hr) as (_ & Hnew & Hfiles).
  split; [exact Hc|]. split; [exact Hr|]. split; [exact Hnew|exact Hfiles].
Defined.

(** C5. No delivery adds the layer in a world where the configuration file
    is absent: when a handler adds the layer, the file was in the container
    when the handler started or the handler pushed it before, and it is
    there when the handler ends.  In an execution that starts with an empty
    log and no configuration file, every [add_layer] comes after a [push] of
    the configuration file. *)
Theorem config_written_before_plan_applied :
  (forall event w pre label layer combine post,
     new_actions (dispatch event) w
       = (pre ++ LayerAdded label layer combine :: post)%list ->
     (config_file_present w \/
      exists source, Pushed "/etc/nrf/nrfcfg.yaml" source ∈ pre) /\
     config_file_present (after (dispatch event) w)) /\
  (forall steps w0 pre label layer combine post,
     trace w0 = [] ->
     ~ config_file_present w0 ->
     trace (run steps w0)
       = (pre ++ LayerAdded label layer combine :: post)%list ->
     exists source, Pushed "/etc/nrf/nrfcfg.yaml" source ∈ pre).
Proof.
  split.
  - intros event w pre label layer combine post Hnew.
    destruct (dispatch_effect event w) as (new & Ht & Hs & Hf).
    rewrite (new_actions_app _ _ _ Ht) in Hnew. subst new.
    apply written_before_applied_split in Hs as Hcase.
    assert (Hor : config_file_present w \/ config_pushed pre = true).
    { destruct Hcase as [H|H]; [left|right; exact H].
      apply bool_decide_eq_true_1 in H. exact H. }
    split.
    + destruct Hor as [H|H]; [left; exact H|right].
      apply config_pushed_elem, H.
    + apply Hf. destruct Hor as [H|H]; [left; exact H|right].
      rewrite config_pushed_app, H. reflexivity.
  - intros steps w0 pre label layer combine post Ht0 Hf0 Ht.
    assert (H0 : config_before_plan w0).
    { split; [rewrite Ht0; reflexivity|]. intros H. destruct (Hf0 H). }
    destruct (run_config_before_plan steps w0 H0) as [Hlog _].
    rewrite Ht in Hlog.
    apply written_before_applied_split in Hlog as [H|H]; [discriminate|].
    apply config_pushed_elem, H.
Qed.

Lemma config_written_before_plan_applied_witness :
  let w0 := initial_world "nrf" "core" in
  let pre :=
    [ StatusSet (WaitingStatus "Waiting for container to be ready");
      Deferred database_relation_joined;
      StatusSet (WaitingStatus "Waiting for config file to be written");
      Pushed "/etc/nrf/nrfcfg.yaml" (nrfcfg "1.2.3.4:1234") ] in
  let post :=
    [ Replanned; StatusSet (ActiveStatus EmptyString);
      InfoSet "http://nrf.core.svc.cluster.local:29510" ] in
  trace w0 = [] /\ ~ config_file_present w0 /\
  trace (run sample_steps w0)
    = (pre ++ LayerAdded "nrf" _pebble_layer true :: post)%list /\
  exists source, Pushed "/etc/nrf/nrfcfg.yaml" source ∈ pre.
Proof.
  intros w0 pre post.
  assert (Ht0 : trace w0 = []) by reflexivity.
  assert (Hf0 : ~ config_file_present w0)
    by (vm_compute; intros [r Hx]; discriminate).
  assert (Ht : trace (run sample_steps w0)
               = (pre ++ LayerAdded "nrf" _pebble_layer true :: post)%list)
    by (vm_compute; reflexivity).
  split; [exact Ht0|]. split; [exact Hf0|]. split; [exact Ht|].
  exact (proj2 config_written_before_plan_applied sample_steps w0 pre
           "nrf" _pebble_layer true post Ht0 Hf0 Ht).
Defined.

(** C6. A second convergence pass meets the inputs of the first (relations,
    reachability, files, application and model name) and leaves the layers,
    hence the plan, the started services, the unit status and the published
    relation data as the first pass left them. *)
Theorem converge_idempotent (event event' : Event) (w : World) :
  let w1 := after (_on_nrf_pebble_ready event) w in
  let w2 := after (_on_nrf_pebble_ready event') w1 in
  (relations w1 = relations w /\
   reachable (container w1) = reachable (container w) /\
   files (container w1) = files (container w) /\
   app_name w1 = app_name w /\ model_name w1 = model_name w) /\
  layers (container w2) = layers (container w1) /\
  Pebble.plan (layers (container w2)) = Pebble.plan (layers (container w1)) /\
  active (container w2) = active (container w1) /\
  unit_status w2 = unit_status w1 /\
  nrf_relation_data w2 = nrf_relation_data w1.
Proof.
  intros w1 w2. unfold w2, w1, after.
  destruct (pebble_ready_cases event w)
    as [(Hd & ->)|[(Hd & ->)|[(Hd & Hr & ->)|[(Hd & Hr & Hf & ->)
       |(Hd & Hr & Hf & ->)]]]];
    cbn [snd].
  - rewrite pebble_ready_several by exact Hd. cbn [snd]. auto 10.
  - rewrite pebble_ready_blocked by exact Hd. cbn. auto 10.
  - rewrite pebble_ready_unreachable by assumption. cbn. auto 10.
  - rewrite pebble_ready_no_config by assumption. cbn. auto 10.
  - rewrite pebble_ready_converged by assumption.
    unfold converged. cbn [snd relations container reachable files layers
      active app_name model_name unit_status nrf_relation_data
      published_endpoint].
    rewrite layers_with_nrf_twice, insert_insert_eq.
    repeat split; try reflexivity.
    rewrite <- (assoc_L (∪)), (idemp_L (∪)). reflexivity.
Qed.

(** C7. On a relation-joined event of the nrf relation: when the service is
    not found running, as it is whenever the container cannot be reached,
    the handler changes nothing, so that it publishes nothing and empty
    relation data stay empty; when the service is found running, the handler
    publishes the URL [http://<app>.<model>.svc.cluster.local:29510] under
    the key [url] and does nothing else. *)
Theorem relation_joined_publishes_when_running (event : Event) (w : World) :
  (~ runtime_reachable w ->
   outcome _nrf_service_is_running w = Return false) /\
  (outcome _nrf_service_is_running w = Return false ->
   _on_nrf_relation_joined event w = (Return tt, w)) /\
  (outcome _nrf_service_is_running w = Return true ->
   let w' := after (_on_nrf_relation_joined event) w in
   let url := "http://" +:+ app_name w +:+ "." +:+ model_name w
              +:+ ".svc.cluster.local:29510" in
   outcome (_on_nrf_relation_joined event) w = Return tt /\
   new_actions (_on_nrf_relation_joined event) w = [InfoSet url] /\
   nrf_relation_data w' = <["url" := url]> (nrf_relation_data w) /\
   container w' = container w /\ unit_status w' = unit_status w).
Proof.
  split; [|split].
  - intros Hr. unfold outcome. rewrite nrf_service_is_running_eq. cbn [fst].
    unfold runtime_reachable in Hr. destruct (reachable (container w));
      [destruct Hr|]; reflexivity.
  - apply relation_joined_not_running.
  - intros Hrun w' url. unfold w', outcome, new_actions, after.
    rewrite (relation_joined_running event w Hrun). cbn [fst snd].
    unfold endpoint_published. cbn [trace nrf_relation_data container
      unit_status]. rewrite drop_app_length. auto.
Qed.

Lemma relation_joined_publishes_when_running_witness :
  let w := sample_world true false true in
  ~ runtime_reachable w /\ nrf_relation_data w = ∅ /\
  outcome _nrf_service_is_running w = Return false /\
  _on_nrf_relation_joined nrf_relation_joined w = (Return tt, w) /\
  outcome _nrf_service_is_running running_world = Return true /\
  new_actions (_on_nrf_relation_joined nrf_relation_joined) running_world =
    [InfoSet "http://nrf.core.svc.cluster.local:29510"].
Proof.
  intros w.
  assert (Hr : ~ runtime_reachable w) by (vm_compute; discriminate).
  destruct (relation_joined_publishes_when_running nrf_relation_joined w)
    as (Hfalse & Hnoop & _).
  destruct (relation_joined_publishes_when_running nrf_relation_joined
              running_world) as (_ & _ & Hpub).
  assert (Hrun : outcome _nrf_service_is_running running_world = Return true)
    by (vm_compute; reflexivity).
  split; [exact Hr|]. split; [reflexivity|]. split; [exact (Hfalse Hr)|].
  split; [exact (Hnoop (Hfalse Hr))|]. split; [exact Hrun|].
  exact (proj1 (proj2 (Hpub Hrun))).
Defined.

(** C9. The query for the running service always returns, leaving the world
    as it is: it returns false when the container cannot be reached and
    when [get_service] raises [ModelError], as it does when the plan has no
    such service; it returns true exactly when the container can be reached,
    the plan has the service and the service is active. *)
Theorem service_query_never_raises (w : World) :
  exists running : bool,
    _nrf_service_is_running w = (Return running, w) /\
    (~ runtime_reachable w -> running = false) /\
    (outcome (get_service "nrf") w = Raise ModelError -> running = false) /\
    (runtime_reachable w ->
     Pebble.plan (layers (container w)) !! "nrf" = None ->
     outcome (get_service "nrf") w = Raise ModelError) /\
    (running = true <->
     runtime_reachable w /\
     is_Some (Pebble.plan (layers (container w)) !! "nrf") /\
     "nrf" ∈ active (container w)).
Proof.
  eexists. split; [apply nrf_service_is_running_eq|].
  destruct_world w. unfold_charm.
  destruct rch.
  - split; [intros []; reflexivity|]. cbn [andb].
    destruct (Pebble.plan ls !! "nrf") as [s|] eqn:E.
    + split; [discriminate|]. split; [discriminate|].
      rewrite (bool_decide_eq_true_2 (is_Some (Some s))) by eauto.
      cbn [andb]. rewrite bool_decide_eq_true. split; [eauto|].
      intros (_ & _ & H). exact H.
    + rewrite (bool_decide_eq_false_2 (is_Some None))
        by (intros [? ?]; discriminate).
      split; [reflexivity|]. split; [reflexivity|].
      split; [discriminate|]. intros (_ & [? ?] & _). discriminate.
  - split; [reflexivity|]. split; [reflexivity|].
    split; [discriminate|]. split; [discriminate|].
    intros (? & _). discriminate.
Qed.

Lemma service_query_never_raises_witness :
  let w := sample_world true true true in
  runtime_reachable w /\
  Pebble.plan (layers (container w)) !! "nrf" = None /\
  outcome (get_service "nrf") w = Raise ModelError /\
  _nrf_service_is_running w = (Return false, w).
Proof.
  intros w.
  assert (Hr : runtime_reachable w) by reflexivity.
  assert (Hp : Pebble.plan (layers (container w)) !! "nrf" = None)
    by reflexivity.
  destruct (service_query_never_raises w)
    as (running & Hrun & _ & Hfalse & Hraise & _).
  split; [exact Hr|]. split; [exact Hp|]. split; [exact (Hraise Hr Hp)|].
  rewrite Hrun, (Hfalse (Hraise Hr Hp)). reflexivity.
Defined.

(** C10. Each of the three handlers only extends the log.  The convergence
    pass and the database-created handler set the unit status at most once,
    to one of the four values of [charm_statuses]; the relation-joined
    handler never sets it.  The relation-joined handler always runs to
    completion; with at most one relation on the database endpoint, where
    [get_relation] does not raise, so does the convergence pass, and the
    database-created handler whenever its event carries a URI list. *)
Theorem status_written_at_most_once (event : Event) (u : string) (w : World) :
  let ready := new_actions (_on_nrf_pebble_ready event) w in
  let created := new_actions (_on_database_created event) w in
  let joined := new_actions (_on_nrf_relation_joined event) w in
  (trace (after (_on_nrf_pebble_ready event) w) = (trace w ++ ready)%list /\
   length (status_writes ready) <= 1 /\
   Forall (fun s => s ∈ charm_statuses) (status_writes ready) /\
   (length (relations_on "database" w) <= 1 ->
    outcome (_on_nrf_pebble_ready event) w = Return tt)) /\
  (trace (after (_on_database_created event) w) = (trace w ++ created)%list /\
   length (status_writes created) <= 1 /\
   Forall (fun s => s ∈ charm_statuses) (status_writes created) /\
   (length (relations_on "database" w) <= 1 ->
    outcome (_on_database_created (database_created (Some u))) w
      = Return tt)) /\
  (trace (after (_on_nrf_relation_joined event) w) = (trace w ++ joined)%list /\
   status_writes joined = [] /\
   unit_status (after (_on_nrf_relation_joined event) w) = unit_status w /\
   outcome (_on_nrf_relation_joined event) w = Return tt) /\
  charm_statuses =
    [ BlockedStatus "Waiting for database relation to be created";
      WaitingStatus "Waiting for container to be ready";
      WaitingStatus "Waiting for config file to be written";
      ActiveStatus EmptyString ].
Proof.
  intros ready created joined. split; [|split; [|split]].
  - destruct (pebble_ready_log event w)
      as [(Hd & Hraise)|(_ & new & s & Ho & Ht & Hs & Hin)].
    + assert (Ht : trace (after (_on_nrf_pebble_ready event) w)
                   = (trace w ++ [])%list)
        by (unfold after; rewrite Hraise, app_nil_r; reflexivity).
      unfold ready. rewrite (new_actions_app _ _ _ Ht).
      split; [exact Ht|]. split; [cbn; lia|]. split; [constructor|].
      unfold database_relations_several in Hd. lia.
    + unfold ready. rewrite (new_actions_app _ _ _ Ht), Hs.
      split; [exact Ht|]. split; [cbn; lia|].
      split; [constructor; [exact Hin|constructor]|intros _; exact Ho].
  - destruct (database_created_log event w) as (new & Ht & Hlen & Hall & _).
    unfold created. rewrite (new_actions_app _ _ _ Ht).
    split; [exact Ht|]. split; [exact Hlen|]. split; [exact Hall|].
    destruct (database_created_log (database_created (Some u)) w)
      as (? & _ & _ & _ & Ho). intros Hle. apply Ho; [eauto|exact Hle].
  - destruct (relation_joined_log event w) as [Ho [H|H]].
    + assert (Ht : trace (after (_on_nrf_relation_joined event) w)
                   = (trace w ++ [])%list) by (rewrite H, app_nil_r; reflexivity).
      unfold joined. rewrite (new_actions_app _ _ _ Ht).
      split; [exact Ht|]. rewrite H. auto.
    + assert (Ht : trace (after (_on_nrf_relation_joined event) w)
                   = (trace w ++ [InfoSet (published_endpoint w)])%list)
        by (rewrite H; reflexivity).
      unfold joined. rewrite (new_actions_app _ _ _ Ht).
      split; [exact Ht|]. rewrite H. auto.
  - reflexivity.
Qed.

(** * Further properties of the handlers *)

(** ** The database-created handler, end to end *)

(** X3. On a reachable container the database-created handler pushes the
    file whether or not the database relation is there, so that its own
    convergence pass never stops at the file guard: with the relation it
    adds the layer, replans, goes Active and publishes; with no relation on
    the endpoint the file is written all the same and the unit is Blocked;
    with several relations the file is written and [get_relation] raises. *)
Theorem database_created_end_to_end (u : string) (w : World) :
  runtime_reachable w ->
  let event := database_created (Some u) in
  let content := nrfcfg (hd EmptyString (split comma u)) in
  let w' := after (_on_database_created event) w in
  files (container w') !! "/etc/nrf/nrfcfg.yaml" = Some content /\
  (database_relation_present w ->
   new_actions (_on_database_created event) w =
     [ Pushed "/etc/nrf/nrfcfg.yaml" content;
       LayerAdded "nrf" _pebble_layer true; Replanned;
       StatusSet (ActiveStatus EmptyString);
       InfoSet (published_endpoint w) ] /\
   unit_status w' = Some (ActiveStatus EmptyString)) /\
  (database_relation_absent w ->
   new_actions (_on_database_created event) w =
     [ Pushed "/etc/nrf/nrfcfg.yaml" content;
       StatusSet
         (BlockedStatus "Waiting for database relation to be created") ] /\
   unit_status w' =
     Some (BlockedStatus "Waiting for database relation to be created") /\
   layers (container w') = layers (container w)) /\
  (database_relations_several w ->
   new_actions (_on_database_created event) w =
     [Pushed "/etc/nrf/nrfcfg.yaml" content] /\
   outcome (_on_database_created event) w = Raise TooManyRelatedAppsError /\
   unit_status w' = unit_status w).
Proof.
  intros Hr event content w'.
  assert (Hrun : _on_database_created event w =
            _on_nrf_pebble_ready event (config_written content w))
    by exact (database_created_reachable u w Hr).
  set (w1 := config_written content w) in *.
  assert (Hr1 : runtime_reachable w1) by exact Hr.
  assert (Hf1 : config_file_present w1).
  { unfold config_file_present, w1, config_written. cbn [container files].
    rewrite lookup_insert_eq. eauto. }
  split; [|split; [|split]].
  - destruct (pebble_ready_effect event w1) as (new & _ & _ & _ & Hf).
    unfold w', after. rewrite Hrun. unfold after in Hf. rewrite Hf.
    unfold w1, config_written. cbn [container files]. apply lookup_insert_eq.
  - intros Hd. unfold w', new_actions, after. rewrite Hrun.
    rewrite (pebble_ready_converged event w1 Hd Hr1 Hf1). cbn [snd].
    split; [|reflexivity].
    unfold converged, w1, config_written. cbn [trace].
    rewrite <- !app_assoc. apply drop_app_length.
  - intros Hd. unfold w', new_actions, after. rewrite Hrun.
    rewrite (pebble_ready_blocked event w1 Hd). cbn [snd].
    split; [|split; reflexivity].
    unfold status_set, w1, config_written. cbn [trace].
    rewrite <- !app_assoc. apply drop_app_length.
  - intros Hd. unfold w', new_actions, outcome, after. rewrite Hrun.
    rewrite (pebble_ready_several event w1 Hd). cbn [fst snd].
    split; [|split; reflexivity].
    unfold w1, config_written. cbn [trace]. apply drop_app_length.
Qed.

Lemma database_created_end_to_end_witness :
  let w := sample_world false true false in
  let event := database_created (Some "1.2.3.4:1234,5.6.7.8:1111") in
  runtime_reachable w /\ database_relation_absent w /\
  files (container (after (_on_database_created event) w))
    !! "/etc/nrf/nrfcfg.yaml" = Some (nrfcfg "1.2.3.4:1234") /\
  new_actions (_on_database_created event) w =
    [ Pushed "/etc/nrf/nrfcfg.yaml" (nrfcfg "1.2.3.4:1234");
      StatusSet (BlockedStatus "Waiting for database relation to be created") ].
Proof.
  intros w event.
  assert (Hr : runtime_reachable w) by reflexivity.
  assert (Hd : database_relation_absent w) by reflexivity.
  destruct (database_created_end_to_end "1.2.3.4:1234,5.6.7.8:1111" w Hr)
    as (Hfile & _ & Hblocked & _).
  destruct (Hblocked Hd) as (Hnew & _).
  split; [exact Hr|]. split; [exact Hd|]. split; [exact Hfile|exact Hnew].
Defined.

(** X4. Whatever the event and the world, the database-created handler
    never sets the status that waits for the configuration file: when it
    reaches the convergence pass, it has just pushed the file. *)
Theorem database_created_never_waits_for_file (event : Event) (w : World) :
  Forall (fun s => s <> WaitingStatus "Waiting for config file to be written")
    (status_writes (new_actions (_on_database_created event) w)).
Proof.
  unfold new_actions, after.
  destruct (runtime_reachable_dec w) as [Hr|Hr].
  - destruct event as [| | |[u|]];
      try (rewrite (database_created_no_uris _ _ Hr) by discriminate;
           cbn [snd]; rewrite drop_ge by lia; constructor).
    rewrite (database_created_reachable _ _ Hr).
    generalize (nrfcfg (hd EmptyString (split comma u))). intros content.
    set (w1 := config_written content w).
    assert (Hr1 : runtime_reachable w1) by exact Hr.
    assert (Hf1 : config_file_present w1).
    { unfold config_file_present, w1, config_written. cbn [container files].
      rewrite lookup_insert_eq. eauto. }
    destruct (database_relations_cases w1) as [Hd|[Hd|Hd]].
    + rewrite (pebble_ready_blocked _ w1 Hd). cbn [snd].
      unfold status_set, w1, config_written. cbn [trace].
      rewrite <- !app_assoc, drop_app_length.
      constructor; [discriminate|constructor].
    + rewrite (pebble_ready_converged _ w1 Hd Hr1 Hf1). cbn [snd].
      unfold converged, w1, config_written. cbn [trace].
      rewrite <- !app_assoc, drop_app_length.
      constructor; [discriminate|constructor].
    + rewrite (pebble_ready_several _ w1 Hd). cbn [snd].
      unfold w1, config_written. cbn [trace].
      rewrite drop_app_length. constructor.
  - rewrite (database_created_unreachable _ _ Hr). cbn [snd].
    rewrite status_set_trace, drop_app_length.
    constructor; [discriminate|constructor].
Qed.

(** ** The URI list *)

Lemma split_join_commas s :
  Forall (fun piece => comma_free piece = true) (split comma s) /\
  join_commas (split comma s) = s.
Proof.
  induction s as [|c r [IHfree IHjoin]]; [split; [repeat constructor|reflexivity]|].
  rewrite split_String. destruct (Ascii.eqb c comma) eqn:E.
  - apply Ascii.eqb_eq in E as ->. split; [constructor; [reflexivity|exact IHfree]|].
    unfold join_commas in *. pose proof (split_nonempty comma r) as Hne.
    destruct (split comma r) as [|h t]; [congruence|].
    change (String.concat "," (EmptyString :: h :: t))
      with (String comma (String.concat "," (h :: t))).
    rewrite IHjoin. reflexivity.
  - pose proof (split_nonempty comma r) as Hne.
    destruct (split comma r) as [|h t]; [congruence|].
    apply Forall_cons in IHfree as [Hh Ht]. split.
    + constructor; [|exact Ht]. cbn [comma_free]. rewrite E, Hh. reflexivity.
    + unfold join_commas in *. rewrite <- IHjoin.
      destruct t as [|h' t']; reflexivity.
Qed.

(** X5. Splitting at commas loses nothing and leaves no comma: the pieces
    of any string are comma-free, there is at least one, and joined with
    commas they give the string back.  So the database URL the handler
    takes, the first piece, is the part of [uris] before its first comma,
    the empty URL when [uris] is empty or starts with a comma. *)
Theorem split_pieces (s : string) :
  Forall (fun piece => comma_free piece = true) (split comma s) /\
  join_commas (split comma s) = s /\
  1 <= length (split comma s) /\
  (exists rest,
     s = hd EmptyString (split comma s) +:+ rest /\
     (rest = EmptyString \/ exists r, rest = String comma r)) /\
  split comma EmptyString = [EmptyString] /\
  hd EmptyString (split comma (String comma s)) = EmptyString.
Proof.
  destruct (split_join_commas s) as [Hfree Hjoin].
  split; [exact Hfree|]. split; [exact Hjoin|].
  pose proof (split_nonempty comma s) as Hne.
  split; [destruct (split comma s); [congruence|cbn; lia]|].
  split; [|split; reflexivity].
  unfold join_commas in Hjoin.
  destruct (split comma s) as [|h [|h' t]]; [congruence| |].
  - exists EmptyString. cbn [hd]. cbn in Hjoin. subst h.
    split; [|left; reflexivity]. rewrite append_empty_r. reflexivity.
  - exists (String comma (String.concat "," (h' :: t))). cbn [hd].
    split; [symmetry; exact Hjoin|right; eauto].
Qed.

(** X6. A comma-joined list of comma-free strings, not empty, splits back
    into the list. *)
Theorem split_of_join (us : list string) :
  us <> [] ->
  Forall (fun u => comma_free u = true) us ->
  split comma (join_commas us) = us.
Proof.
  intros Hne Hfree. induction Hfree as [|u us Hu Hus IH]; [congruence|].
  destruct us as [|u' r].
  - cbn. apply split_comma_free, Hu.
  - change (join_commas (u :: u' :: r))
      with (u +:+ String comma (join_commas (u' :: r))).
    rewrite (split_first _ _ Hu), IH by discriminate. reflexivity.
Qed.

Lemma split_of_join_witness :
  sample_uris <> [] /\
  Forall (fun u => comma_free u = true) sample_uris /\
  split comma (join_commas sample_uris) = sample_uris.
Proof.
  assert (Hne : sample_uris <> []) by discriminate.
  assert (Hfree : Forall (fun u => comma_free u = true) sample_uris)
    by (repeat constructor).
  split; [exact Hne|]. split; [exact Hfree|].
  exact (split_of_join sample_uris Hne Hfree).
Defined.

(** ** Every delivery, case by case *)

Lemma dispatch_cases event w :
  let w' := after (dispatch event) w in
  w' = w \/
  w' = status_set
         (BlockedStatus "Waiting for database relation to be created") [] w \/
  (~ runtime_reachable w /\ event <> nrf_relation_joined /\
   w' = status_set (WaitingStatus "Waiting for container to be ready")
          [Deferred event] w) \/
  (runtime_reachable w /\
   w' = status_set
          (WaitingStatus "Waiting for config file to be written") [] w) \/
  (database_relation_present w /\ runtime_reachable w /\
   config_file_present w /\ w' = converged w) \/
  (outcome _nrf_service_is_running w = Return true /\
   w' = endpoint_published w) \/
  (exists u,
     event = database_created (Some u) /\ runtime_reachable w /\
     w' = status_set
            (BlockedStatus "Waiting for database relation to be created") []
            (config_written (nrfcfg (hd EmptyString (split comma u))) w)) \/
  (exists u,
     event = database_created (Some u) /\
     runtime_reachable w /\ database_relation_present w /\
     w' = converged
            (config_written (nrfcfg (hd EmptyString (split comma u))) w)) \/
  (exists u,
     event = database_created (Some u) /\
     runtime_reachable w /\ database_relations_several w /\
     w' = config_written (nrfcfg (hd EmptyString (split comma u))) w).
Proof.
  assert (Hready : forall e, e <> nrf_relation_joined ->
    let w' := after (_on_nrf_pebble_ready e) w in
    w' = w \/
    w' = status_set
           (BlockedStatus "Waiting for database relation to be created") [] w \/
    (~ runtime_reachable w /\ e <> nrf_relation_joined /\
     w' = status_set (WaitingStatus "Waiting for container to be ready")
            [Deferred e] w) \/
    (runtime_reachable w /\
     w' = status_set
            (WaitingStatus "Waiting for config file to be written") [] w) \/
    (database_relation_present w /\ runtime_reachable w /\
     config_file_present w /\ w' = converged w) \/
    (outcome _nrf_service_is_running w = Return true /\
     w' = endpoint_published w) \/
    (exists u,
       e = database_created (Some u) /\ runtime_reachable w /\
       w' = status_set
              (BlockedStatus "Waiting for database relation to be created") []
              (config_written (nrfcfg (hd EmptyString (split comma u))) w)) \/
    (exists u,
       e = database_created (Some u) /\
       runtime_reachable w /\ database_relation_present w /\
       w' = converged
              (config_written (nrfcfg (hd EmptyString (split comma u))) w)) \/
    (exists u,
       e = database_created (Some u) /\
       runtime_reachable w /\ database_relations_several w /\
       w' = config_written (nrfcfg (hd EmptyString (split comma u))) w)).
  { intros e He w'. unfold w', after.
    destruct (pebble_ready_cases e w)
      as [(Hd & ->)|[(Hd & ->)|[(Hd & Hr & ->)|[(Hd & Hr & Hf & ->)
         |(Hd & Hr & Hf & ->)]]]];
      cbn [snd]; [left|right; left|do 2 right; left|do 3 right; left|
                  do 4 right; left]; auto. }
  intros w'. unfold w'. clear w'.
  destruct event as [| | |[u|]]; cbn [dispatch];
    try (apply Hready; discriminate).
  - unfold after.
    destruct (outcome _nrf_service_is_running w) as [[|]|] eqn:E.
    + rewrite (relation_joined_running _ _ E). do 5 right. left. auto.
    + rewrite (relation_joined_not_running _ _ E). left. reflexivity.
    + unfold outcome in E. rewrite nrf_service_is_running_eq in E.
      discriminate.
  - destruct (runtime_reachable_dec w) as [Hr|Hr]; unfold after.
    + rewrite (database_created_reachable _ _ Hr).
      set (content := nrfcfg _). set (w1 := config_written content w).
      assert (Hr1 : runtime_reachable w1) by exact Hr.
      assert (Hf1 : config_file_present w1).
      { unfold config_file_present, w1, config_written.
        cbn [container files]. rewrite lookup_insert_eq. eauto. }
      destruct (database_relations_cases w1) as [Hd|[Hd|Hd]].
      * rewrite (pebble_ready_blocked _ w1 Hd).
        do 6 right. left. exists u. auto.
      * rewrite (pebble_ready_converged _ w1 Hd Hr1 Hf1).
        do 7 right. left. exists u. auto.
      * rewrite (pebble_ready_several _ w1 Hd).
        do 8 right. exists u. auto.
    + rewrite (database_created_unreachable _ _ Hr). do 2 right. left.
      split; [exact Hr|]. split; [discriminate|reflexivity].
  - destruct (runtime_reachable_dec w) as [Hr|Hr]; unfold after.
    + rewrite (database_created_no_uris _ _ Hr) by discriminate.
      left. reflexivity.
    + rewrite (database_created_unreachable _ _ Hr). do 2 right. left.
      split; [exact Hr|]. split; [discriminate|reflexivity].
Qed.

(** ** Guards *)

Lemma dispatch_outcomes event w :
  outcome (dispatch event) w = Return tt \/
  outcome (dispatch event) w = Raise TooManyRelatedAppsError \/
  outcome (dispatch event) w = Raise AttributeError.
Proof.
  assert (Hready : forall e v,
    outcome (_on_nrf_pebble_ready e) v = Return tt \/
    outcome (_on_nrf_pebble_ready e) v = Raise TooManyRelatedAppsError \/
    outcome (_on_nrf_pebble_ready e) v = Raise AttributeError).
  { intros e v. destruct (pebble_ready_log e v)
      as [(_ & H)|(_ & ? & ? & H & _)]; [right; left|left; exact H].
    unfold outcome. rewrite H. reflexivity. }
  destruct event as [| | |[u|]]; cbn [dispatch]; try apply Hready.
  - left. apply relation_joined_log.
  - destruct (runtime_reachable_dec w) as [Hr|Hr]; unfold outcome.
    + rewrite (database_created_reachable _ _ Hr). apply Hready.
    + rewrite (database_created_unreachable _ _ Hr). left. reflexivity.
  - destruct (runtime_reachable_dec w) as [Hr|Hr]; unfold outcome.
    + rewrite (database_created_no_uris _ _ Hr) by discriminate.
      right; right. reflexivity.
    + rewrite (database_created_unreachable _ _ Hr). left. reflexivity.
Qed.

(** X1. The handlers call Pebble only behind a [can_connect] guard.  No
    delivery ends in the [ConnectionError] of a call on an unreachable
    container.  Delivered to an unreachable container, an event leaves the
    container and the relation data as they are, only sets a status or
    defers, and runs to completion unless [get_relation] raises for several
    database relations, which it does before any effect.  A database-created
    event without URIs, delivered to a reachable container, raises
    [AttributeError] before any effect. *)
Theorem dispatch_guards (event : Event) (w : World) :
  (outcome (dispatch event) w = Raise ConnectionError -> False) /\
  (~ runtime_reachable w ->
   container (after (dispatch event) w) = container w /\
   nrf_relation_data (after (dispatch event) w) = nrf_relation_data w /\
   forallb is_status_or_defer (new_actions (dispatch event) w) = true /\
   (outcome (dispatch event) w = Return tt \/
    (database_relations_several w /\
     dispatch event w = (Raise TooManyRelatedAppsError, w)))) /\
  (runtime_reachable w ->
   dispatch (database_created None) w = (Raise AttributeError, w)).
Proof.
  split; [|split].
  - intros H. destruct (dispatch_outcomes event w) as [H'|[H'|H']];
      rewrite H' in H; discriminate H.
  - intros Hr.
    assert (Hset : forall s extra,
      forallb is_status_or_defer extra = true ->
      dispatch event w = (Return tt, status_set s extra w) ->
      container (after (dispatch event) w) = container w /\
      nrf_relation_data (after (dispatch event) w) = nrf_relation_data w /\
      forallb is_status_or_defer (new_actions (dispatch event) w) = true /\
      (outcome (dispatch event) w = Return tt \/
       (database_relations_several w /\
        dispatch event w = (Raise TooManyRelatedAppsError, w)))).
    { intros s extra Hextra H. unfold after, outcome, new_actions, after.
      rewrite H. cbn [fst snd]. rewrite status_set_trace, drop_app_length.
      cbn [forallb is_status_or_defer andb]. auto. }
    assert (Hsame : forall o,
      dispatch event w = (o, w) ->
      (o = Return tt \/
       (database_relations_several w /\ o = Raise TooManyRelatedAppsError)) ->
      container (after (dispatch event) w) = container w /\
      nrf_relation_data (after (dispatch event) w) = nrf_relation_data w /\
      forallb is_status_or_defer (new_actions (dispatch event) w) = true /\
      (outcome (dispatch event) w = Return tt \/
       (database_relations_several w /\
        dispatch event w = (Raise TooManyRelatedAppsError, w)))).
    { intros o H Ho. unfold after, outcome, new_actions, after.
      rewrite H. cbn [fst snd]. rewrite drop_ge by lia.
      split; [reflexivity|]. split; [reflexivity|]. split; [reflexivity|].
      destruct Ho as [->|[Hd ->]]; auto. }
    assert (Hready : forall e, dispatch event = _on_nrf_pebble_ready e ->
      container (after (dispatch event) w) = container w /\
      nrf_relation_data (after (dispatch event) w) = nrf_relation_data w /\
      forallb is_status_or_defer (new_actions (dispatch event) w) = true /\
      (outcome (dispatch event) w = Return tt \/
       (database_relations_several w /\
        dispatch event w = (Raise TooManyRelatedAppsError, w)))).
    { intros e He.
      destruct (pebble_ready_cases e w)
        as [(Hd & H)|[(Hd & H)|[(Hd & _ & H)|[(_ & Hr' & _)|(_ & Hr' & _)]]]];
        try (destruct (Hr Hr')); rewrite <- He in H.
      - apply (Hsame _ H). right. auto.
      - apply (Hset _ [] eq_refl H).
      - apply (Hset _ [Deferred e] eq_refl H). }
    destruct event as [| | |u]; try (apply (Hready _ eq_refl)).
    + apply (Hsame (Return tt)); [|left; reflexivity].
      cbn [dispatch]. apply relation_joined_not_running.
      unfold outcome. rewrite nrf_service_is_running_eq. cbn [fst].
      unfold runtime_reachable in Hr.
      destruct (reachable (container w)); [destruct Hr|]; reflexivity.
    + eapply (Hset _ [Deferred (database_created u)] eq_refl).
      cbn [dispatch]. apply database_created_unreachable, Hr.
  - intros Hr. cbn [dispatch].
    apply database_created_no_uris; [exact Hr|discriminate].
Qed.

Lemma dispatch_guards_witness :
  let w := sample_world true false true in
  let event := database_created None in
  ~ runtime_reachable w /\
  container (after (dispatch event) w) = container w /\
  outcome (dispatch event) w = Return tt /\
  new_actions (dispatch event) w =
    [ StatusSet (WaitingStatus "Waiting for container to be ready");
      Deferred event ] /\
  runtime_reachable (sample_world true true true) /\
  dispatch event (sample_world true true true)
    = (Raise AttributeError, sample_world true true true).
Proof.
  intros w event.
  assert (Hr : ~ runtime_reachable w) by (vm_compute; discriminate).
  assert (Hr' : runtime_reachable (sample_world true true true))
    by reflexivity.
  destruct (dispatch_guards event w) as (_ & Hun & _).
  destruct (dispatch_guards event (sample_world true true true))
    as (_ & _ & Hnone).
  destruct (Hun Hr) as (Hc & _ & _ & _).
  split; [exact Hr|]. split; [exact Hc|]. split; [reflexivity|].
  split; [reflexivity|]. split; [exact Hr'|exact (Hnone Hr')].
Defined.

(** ** The status a convergence pass writes *)

(** X2. What a convergence pass writes to the unit status tells which guard
    stopped it: nothing exactly when several relations sit on the database
    endpoint, where [get_relation] raises and the world is left as it is;
    Blocked exactly when there is none; Waiting for the container exactly
    when the relation is there and the container cannot be reached; Waiting
    for the configuration file exactly when only the file is missing; Active
    exactly when relation, container and file are all there, which is also
    exactly when the layer is added.  A status written is the status the
    unit shows, and the pass then ran to completion. *)
Theorem converge_status_table (event : Event) (w : World) :
  let w' := after (_on_nrf_pebble_ready event) w in
  let written := status_writes (new_actions (_on_nrf_pebble_ready event) w) in
  (written = [] <-> database_relations_several w) /\
  (_on_nrf_pebble_ready event w = (Raise TooManyRelatedAppsError, w)
   <-> database_relations_several w) /\
  (written = [BlockedStatus "Waiting for database relation to be created"]
   <-> database_relation_absent w) /\
  (written = [WaitingStatus "Waiting for container to be ready"]
   <-> database_relation_present w /\ ~ runtime_reachable w) /\
  (written = [WaitingStatus "Waiting for config file to be written"]
   <-> database_relation_present w /\ runtime_reachable w /\
       ~ config_file_present w) /\
  (written = [ActiveStatus EmptyString]
   <-> database_relation_present w /\ runtime_reachable w /\
       config_file_present w) /\
  (LayerAdded "nrf" _pebble_layer true
     ∈ new_actions (_on_nrf_pebble_ready event) w
   <-> written = [ActiveStatus EmptyString]) /\
  (written = [] \/
   exists s, written = [s] /\ unit_status w' = Some s /\
             outcome (_on_nrf_pebble_ready event) w = Return tt).
Proof.
  intros w' written. unfold w', written, new_actions, outcome, after.
  clear w' written.
  assert (Habs : database_relation_absent w ->
                 database_relation_present w -> False)
    by (intros H [r Hr]; rewrite H in Hr; discriminate).
  assert (Habs2 : database_relation_absent w ->
                  database_relations_several w -> False)
    by (unfold database_relations_several; intros ->; cbn; lia).
  assert (Hpres : database_relation_present w ->
                  database_relations_several w -> False)
    by (unfold database_relations_several; intros [r ->]; cbn; lia).
  destruct (pebble_ready_cases event w)
    as [(Hd & ->)|[(Hd & ->)|[(Hd & Hr & ->)|[(Hd & Hr & Hf & ->)
       |(Hd & Hr & Hf & ->)]]]];
    cbn [fst snd]; rewrite ?status_set_trace;
    unfold converged; cbn [trace unit_status status_set];
    rewrite ?drop_app_length; try (rewrite drop_ge by lia);
    change (status_writes []) with (@nil Status);
    repeat match goal with
           | |- context [status_writes (?a :: ?l)] =>
               let r := eval cbv in (status_writes (a :: l)) in
               change (status_writes (a :: l)) with r
           end.
  all: repeat split;
    try solve [tauto | discriminate | intros; exfalso; tauto
              | intros H; apply list_elem_of_In in H; cbn in H;
                intuition discriminate
              | intros; exfalso; intuition (try discriminate; eauto)
              | left; reflexivity
              | right; eexists; repeat split; reflexivity
              | intros _; left
              | intros _; reflexivity
              | intros; assumption ].
Qed.

Example converge_on_crowded_endpoint :
  _on_nrf_pebble_ready nrf_pebble_ready crowded_world
    = (Raise TooManyRelatedAppsError, crowded_world) /\
  run [RelationCreated "database" 0; RelationCreated "database" 1;
       Reachability true; Deliver database_relation_joined]
      (initial_world "nrf" "core")
    = run [RelationCreated "database" 0; RelationCreated "database" 1;
           Reachability true]
          (initial_world "nrf" "core") /\
  unit_status
    (run [RelationCreated "database" 0; RelationCreated "database" 1;
          RelationRemoved "database" 0; Deliver database_relation_joined]
         (initial_world "nrf" "core"))
    = Some (WaitingStatus "Waiting for container to be ready").
Proof. vm_compute. repeat split. Qed.

(** ** What a delivery leaves alone *)

(** X7. No delivery changes the names, the relations or the reachability it
    observes; it touches no file but [/etc/nrf/nrfcfg.yaml] and removes
    none; it stops no service, drops no layer, and only appends to the
    log. *)
Theorem dispatch_frame (event : Event) (w : World) :
  let w' := after (dispatch event) w in
  app_name w' = app_name w /\ model_name w' = model_name w /\
  relations w' = relations w /\
  reachable (container w') = reachable (container w) /\
  (files (container w') = files (container w) \/
   exists content,
     files (container w')
       = <["/etc/nrf/nrfcfg.yaml" := content]> (files (container w))) /\
  active (container w) ⊆ active (container w') /\
  length (layers (container w)) <= length (layers (container w')) /\
  trace w' = (trace w ++ new_actions (dispatch event) w)%list.
Proof.
  intros w'.
  assert (Hlen : forall ls, length ls <= length (layers_with_nrf ls)).
  { intros ls. unfold layers_with_nrf.
    destruct (Pebble.has_label "nrf" ls).
    - clear. induction ls as [|[l old] r IH]; cbn [Pebble.update_label];
        [lia|]. destruct (String.eqb l "nrf"); cbn [length]; lia.
    - rewrite length_app. cbn. lia. }
  assert (Htrace : forall new, trace w' = (trace w ++ new)%list ->
            trace w' = (trace w ++ new_actions (dispatch event) w)%list).
  { intros new H. rewrite (new_actions_app _ _ _ H). exact H. }
  pose proof (dispatch_cases event w) as H. cbv zeta in H. fold w' in H.
  destruct H as [H|[H|[(_ & _ & H)|[(_ & H)|[(_ & _ & _ & H)|[(_ & H)|
                 [(u & _ & _ & H)|[(u & _ & _ & _ & H)
                 |(u & _ & _ & _ & H)]]]]]]]];
    (repeat split;
     [rewrite H; reflexivity ..| | | |]);
    try (rewrite H; cbn [status_set converged endpoint_published
           config_written container files active layers];
         first [left; reflexivity|right; eexists; reflexivity
               |reflexivity|lia|apply Hlen|apply union_subseteq_l]).
  all: try (eapply Htrace; rewrite H;
            unfold status_set, converged, endpoint_published, config_written;
            cbn [trace]; rewrite <- ?app_assoc; reflexivity).
  - eapply (Htrace []). rewrite H, app_nil_r. reflexivity.
Qed.

(** ** Deferral *)

(** X8. A delivery defers only the event it was given, only when the
    container cannot be reached, and then it does nothing but set the
    status to Waiting for the container and defer; the relation-joined
    handler never defers. *)
Theorem defer_only_when_unreachable (event deferred : Event) (w : World) :
  Deferred deferred ∈ new_actions (dispatch event) w ->
  deferred = event /\ ~ runtime_reachable w /\
  event <> nrf_relation_joined /\
  new_actions (dispatch event) w =
    [ StatusSet (WaitingStatus "Waiting for container to be ready");
      Deferred event ] /\
  container (after (dispatch event) w) = container w.
Proof.
  unfold new_actions.
  pose proof (dispatch_cases event w) as H. cbv zeta in H.
  destruct H as [H|[H|[(Hr & He & H)|[(_ & H)|[(_ & _ & _ & H)|[(_ & H)|
                 [(u & _ & _ & H)|[(u & _ & _ & _ & H)
                 |(u & _ & _ & _ & H)]]]]]]]];
    rewrite H;
    unfold status_set, converged, endpoint_published, config_written;
    cbn [trace container]; rewrite <- ?app_assoc, ?drop_app_length;
    try (rewrite drop_ge by lia);
    intros Hin; apply list_elem_of_In in Hin; cbn [In app] in Hin;
    try (exfalso; intuition discriminate).
  destruct Hin as [Hin|[Hin|[]]]; [discriminate|].
  injection Hin as <-. auto.
Qed.

Lemma defer_only_when_unreachable_witness :
  let w := sample_world true false false in
  let event := database_created (Some "1.2.3.4:1234") in
  Deferred event ∈ new_actions (dispatch event) w /\
  ~ runtime_reachable w /\
  new_actions (dispatch event) w =
    [ StatusSet (WaitingStatus "Waiting for container to be ready");
      Deferred event ].
Proof.
  intros w event.
  assert (Hin : Deferred event ∈ new_actions (dispatch event) w)
    by (right; left).
  destruct (defer_only_when_unreachable event event w Hin)
    as (_ & Hr & _ & Hnew & _).
  split; [exact Hin|]. split; [exact Hr|exact Hnew].
Defined.

(** ** After a convergence pass *)

Lemma combine_services_is_Some_l old new k :
  is_Some (old !! k) -> is_Some (Pebble.combine_services old new !! k).
Proof.
  intros [o Ho]. unfold Pebble.combine_services. rewrite lookup_union_with, Ho.
  destruct (new !! k); cbn; eauto.
Qed.

Lemma combine_services_is_Some_r old new k :
  is_Some (new !! k) -> is_Some (Pebble.combine_services old new !! k).
Proof.
  intros [n Hn]. unfold Pebble.combine_services. rewrite lookup_union_with, Hn.
  destruct (old !! k); cbn; eauto.
Qed.

Lemma plan_foldl_is_Some ls acc k :
  is_Some (acc !! k) ->
  is_Some (foldl (fun acc (ll : string * Layer) =>
                    Pebble.combine_services acc (services ll.2))
             acc ls !! k).
Proof.
  revert acc. induction ls as [|[l L] r IH]; intros acc H; [exact H|].
  cbn [foldl]. apply IH, combine_services_is_Some_l, H.
Qed.

Lemma plan_declares ls label L k :
  (label, L) ∈ ls -> is_Some (services L !! k) ->
  is_Some (Pebble.plan ls !! k).
Proof.
  unfold Pebble.plan. generalize (∅ : gmap string Service).
  induction ls as [|[l' L'] r IH]; intros acc Hin Hk.
  - apply elem_of_nil in Hin. destruct Hin.
  - cbn [foldl]. apply elem_of_cons in Hin as [Heq|Hin].
    + injection Heq as <- <-.
      apply plan_foldl_is_Some, combine_services_is_Some_r, Hk.
    + apply IH; assumption.
Qed.

Lemma plan_snoc ls l L :
  Pebble.plan (ls ++ [(l, L)])
  = Pebble.combine_services (Pebble.plan ls) (services L).
Proof. unfold Pebble.plan. rewrite foldl_app. reflexivity. Qed.

(** X9. After a pass that converged the service is declared: the plan has
    an entry [nrf] and [get_service] does not raise.  When the container had
    no layer labelled [nrf] before, the plan entry is the charm's, the
    service is started, the query finds it running, and a relation-joined
    event that follows publishes the endpoint. *)
Theorem converged_service_is_declared (event : Event) (w : World) :
  database_relation_present w ->
  runtime_reachable w ->
  config_file_present w ->
  let w' := after (_on_nrf_pebble_ready event) w in
  is_Some (Pebble.plan (layers (container w')) !! "nrf") /\
  (exists info, outcome (get_service "nrf") w' = Return info) /\
  (Pebble.has_label "nrf" (layers (container w)) = false ->
   Pebble.plan (layers (container w')) !! "nrf" = Some nrf_service /\
   "nrf" ∈ active (container w') /\
   outcome _nrf_service_is_running w' = Return true /\
   new_actions (_on_nrf_relation_joined nrf_relation_joined) w' =
     [InfoSet (published_endpoint w)]).
Proof.
  intros Hd Hr Hf w'.
  assert (Hw' : w' = converged w)
    by (unfold w', after; rewrite (pebble_ready_converged _ _ Hd Hr Hf);
        reflexivity).
  assert (Hplan : is_Some (Pebble.plan (layers (container w')) !! "nrf")).
  { rewrite Hw'. unfold converged. cbn [container layers].
    destruct (layers_with_nrf_lookup (layers (container w)))
      as (L & Hin & Hs).
    eapply plan_declares; [exact Hin|]. rewrite Hs. eauto. }
  assert (Hr' : reachable (container w') = true)
    by (rewrite Hw'; exact Hr).
  split; [exact Hplan|]. split.
  { destruct Hplan as [s Hs]. unfold outcome, get_service, pebble_call.
    rewrite Hr'. unfold mbind, Handler_bind, gets. rewrite Hs.
    eexists. reflexivity. }
  intros Hlabel.
  assert (Hnrf : Pebble.plan (layers (container w')) !! "nrf"
                 = Some nrf_service).
  { rewrite Hw'. unfold converged, layers_with_nrf. cbn [container layers].
    rewrite Hlabel, plan_snoc, combine_pebble_layer. apply lookup_insert_eq. }
  assert (Hact : "nrf" ∈ active (container w')).
  { rewrite Hw' in Hnrf |- *. unfold converged in *.
    cbn [container layers active] in *.
    apply elem_of_union_r. unfold Pebble.autostart.
    apply elem_of_dom. exists nrf_service.
    apply map_lookup_filter_Some. split; [exact Hnrf|reflexivity]. }
  assert (Hrun : outcome _nrf_service_is_running w' = Return true).
  { unfold outcome. rewrite nrf_service_is_running_eq. cbn [fst].
    rewrite Hr', (bool_decide_eq_true_2 _ Hplan), (bool_decide_eq_true_2 _ Hact).
    reflexivity. }
  split; [exact Hnrf|]. split; [exact Hact|]. split; [exact Hrun|].
  apply new_actions_app. unfold after.
  rewrite (relation_joined_running _ _ Hrun). cbn [snd].
  unfold endpoint_published. cbn [trace]. rewrite Hw'. reflexivity.
Qed.

Lemma converged_service_is_declared_witness :
  let w := sample_world true true true in
  let w' := after (_on_nrf_pebble_ready nrf_pebble_ready) w in
  database_relation_present w /\ runtime_reachable w /\
  config_file_present w /\
  Pebble.has_label "nrf" (layers (container w)) = false /\
  outcome _nrf_service_is_running w' = Return true /\
  new_actions (_on_nrf_relation_joined nrf_relation_joined) w' =
    [InfoSet (published_endpoint w)].
Proof.
  intros w w'.
  assert (Hd : database_relation_present w) by (vm_compute; eauto).
  assert (Hr : runtime_reachable w) by reflexivity.
  assert (Hf : config_file_present w) by (vm_compute; eauto).
  assert (Hl : Pebble.has_label "nrf" (layers (container w)) = false)
    by reflexivity.
  destruct (converged_service_is_declared nrf_pebble_ready w Hd Hr Hf)
    as (_ & _ & Hfresh).
  destruct (Hfresh Hl) as (_ & _ & Hrun & Hnew).
  split; [exact Hd|]. split; [exact Hr|]. split; [exact Hf|].
  split; [exact Hl|]. split; [exact Hrun|exact Hnew].
Defined.

(** ** The event a pass is given *)

(** X10. A convergence pass uses its event only to defer it: for any two
    events it leaves the same container, unit status and relation data and
    writes the same statuses, and on a reachable container it leaves the
    same world. *)
Theorem converge_ignores_event (e1 e2 : Event) (w :World) :
  let w1 := after (_on_nrf_pebble_ready e1) w in
  let w2 := after (_on_nrf_pebble_ready e2) w in
  container w1 = container w2 /\ unit_status w1 = unit_status w2 /\
  nrf_relation_data w1 = nrf_relation_data w2 /\
  status_writes (trace w1) = status_writes (trace w2) /\
  (reachable (container w) = true -> w1 = w2).
Proof.
  intros w1 w2. unfold w1, w2, after.
  destruct (pebble_ready_cases e1 w)
    as [(Hd & ->)|[(Hd & ->)|[(Hd & Hr & ->)|[(Hd & Hr & Hf & ->)
       |(Hd & Hr & Hf & ->)]]]].
  - rewrite (pebble_ready_several e2 w Hd). auto.
  - rewrite (pebble_ready_blocked e2 w Hd). auto.
  - rewrite (pebble_ready_unreachable e2 w Hd Hr). cbn [snd].
    unfold status_set. cbn [container unit_status nrf_relation_data trace].
    split; [reflexivity|]. split; [reflexivity|]. split; [reflexivity|].
    split; [|intros H; destruct (Hr H)].
    unfold status_writes. rewrite !omap_app. reflexivity.
  - rewrite (pebble_ready_no_config e2 w Hd Hr Hf). auto.
  - rewrite (pebble_ready_converged e2 w Hd Hr Hf). auto.
Qed.

(** ** Executions: the unit status *)

Lemma status_writes_app l1 l2 :
  status_writes (l1 ++ l2) = (status_writes l1 ++ status_writes l2)%list.
Proof. apply omap_app. Qed.

Lemma dispatch_status event w :
  let w' := after (dispatch event) w in
  (status_writes (trace w') = status_writes (trace w) /\
   unit_status w' = unit_status w) \/
  (exists s, s ∈ charm_statuses /\
     status_writes (trace w') = (status_writes (trace w) ++ [s])%list /\
     unit_status w' = Some s).
Proof.
  pose proof (dispatch_cases event w) as H. cbv zeta in H |- *.
  destruct H as [H|[H|[(_ & _ & H)|[(_ & H)|[(_ & _ & _ & H)|[(_ & H)|
                 [(u & _ & _ & H)|[(u & _ & _ & _ & H)
                 |(u & _ & _ & _ & H)]]]]]]]];
    rewrite H; clear H;
    unfold status_set, converged, endpoint_published, config_written;
    cbn [trace unit_status]; rewrite ?status_writes_app;
    first [ left; split; [|reflexivity]; cbn; rewrite ?app_nil_r; reflexivity
          | right; eexists; split;
            [|split; [cbn; rewrite ?app_nil_r; reflexivity|reflexivity]];
            unfold charm_statuses; set_solver ].
Qed.

Lemma step_status_is_last_written s w :
  status_is_last_written w -> status_is_last_written (step s w).
Proof.
  intros [Hlast Hall]. destruct s as [event|b|name id|name|path|name];
    try (split; [exact Hlast|exact Hall]).
  cbn [step]. destruct (dispatch_status event w) as [[Hs Hu]|(s & Hin & Hs & Hu)].
  - split; [rewrite Hu, Hs; exact Hlast|rewrite Hs; exact Hall].
  - split; [rewrite Hu, Hs, last_snoc; reflexivity|].
    rewrite Hs. apply Forall_app. split; [exact Hall|].
    constructor; [exact Hin|constructor].
Qed.

Lemma run_status_is_last_written steps w :
  status_is_last_written w -> status_is_last_written (run steps w).
Proof.
  revert w. induction steps as [|s r IH]; intros w H; [exact H|].
  cbn [run foldl]. apply IH, step_status_is_last_written, H.
Qed.

(** X11. In an execution that starts with an empty log and no status, the
    unit status is at every point the last status a handler wrote, and it
    is unset or one of the four statuses of the charm, whatever events are
    delivered and however the platform changes in between. *)
Theorem execution_status (steps : list Step) (w0 : World) :
  trace w0 = [] ->
  unit_status w0 = None ->
  let w := run steps w0 in
  unit_status w = last (status_writes (trace w)) /\
  Forall (fun s => s ∈ charm_statuses) (status_writes (trace w)) /\
  (unit_status w = None \/
   exists s, unit_status w = Some s /\ s ∈ charm_statuses).
Proof.
  intros Ht Hu w.
  assert (H0 : status_is_last_written w0)
    by (split; [rewrite Hu, Ht; reflexivity|rewrite Ht; constructor]).
  destruct (run_status_is_last_written steps w0 H0) as [Hlast Hall].
  fold w in Hlast, Hall.
  split; [exact Hlast|]. split; [exact Hall|].
  rewrite Hlast.
  destruct (status_writes (trace w)) as [|s l _] using rev_ind;
    [left; reflexivity|right].
  rewrite last_snoc. exists s. split; [reflexivity|].
  apply Forall_app in Hall as [_ Hs]. apply Forall_cons in Hs as [Hs _].
  exact Hs.
Qed.

Lemma execution_status_witness :
  let w := run sample_steps (initial_world "nrf" "core") in
  trace (initial_world "nrf" "core") = [] /\
  unit_status (initial_world "nrf" "core") = None /\
  unit_status w = last (status_writes (trace w)) /\
  unit_status w = Some (ActiveStatus EmptyString).
Proof.
  intros w.
  destruct (execution_status sample_steps (initial_world "nrf" "core")
              eq_refl eq_refl) as (Hlast & _ & _).
  split; [reflexivity|]. split; [reflexivity|]. split; [exact Hlast|].
  vm_compute. reflexivity.
Defined.

(** ** Executions: publication *)

Lemma each_preceded_mono cause target seen log :
  each_preceded cause target seen log = true ->
  each_preceded cause target true log = true.
Proof.
  revert seen. induction log as [|a r IH]; intros seen; [reflexivity|].
  cbn [each_preceded]. intros H. apply andb_true_iff in H as [_ H].
  rewrite orb_true_r. cbn [andb orb]. eapply IH.
  instantiate (1 := seen || cause a). exact H.
Qed.

Lemma each_preceded_app cause target seen l1 l2 :
  each_preceded cause target seen (l1 ++ l2) =
    each_preceded cause target seen l1
    && each_preceded cause target (seen || existsb cause l1) l2.
Proof.
  revert seen. induction l1 as [|a r IH]; intros seen.
  - cbn. rewrite orb_false_r. reflexivity.
  - cbn [app each_preceded existsb]. rewrite IH, orb_assoc, andb_assoc.
    reflexivity.
Qed.

Lemma existsb_elem {A} (f : A -> bool) (l : list A) :
  existsb f l = true -> exists a, a ∈ l /\ f a = true.
Proof.
  intros H. apply existsb_exists in H as (a & Hin & Hf).
  exists a. split; [apply list_elem_of_In, Hin|exact Hf].
Qed.

Lemma each_preceded_split cause target seen pre a post :
  each_preceded cause target seen (pre ++ a :: post) = true ->
  target a = true ->
  seen = true \/ existsb cause pre = true.
Proof.
  rewrite each_preceded_app. cbn [each_preceded]. intros H Ha.
  apply andb_true_iff in H as [_ H]. apply andb_true_iff in H as [H _].
  rewrite Ha in H. cbn [negb orb] in H. apply orb_true_iff in H. exact H.
Qed.

Lemma running_has_layers w :
  outcome _nrf_service_is_running w = Return true ->
  layers (container w) <> [].
Proof.
  unfold outcome. rewrite nrf_service_is_running_eq. cbn [fst].
  intros H Hnil. rewrite Hnil in H. injection H as H.
  apply andb_true_iff in H as [H _]. apply andb_true_iff in H as [_ H].
  apply bool_decide_eq_true_1 in H as [s Hs]. discriminate Hs.
Qed.

Lemma layers_with_nrf_nonempty ls : layers_with_nrf ls <> [].
Proof.
  unfold layers_with_nrf. destruct (Pebble.has_label "nrf" ls) eqn:E.
  - destruct ls as [|[l old] r]; [discriminate E|].
    cbn [Pebble.update_label]. destruct (String.eqb l "nrf"); discriminate.
  - destruct ls; discriminate.
Qed.

Lemma dispatch_publishes endpoint event w :
  publishes_after_plan endpoint w ->
  publishes_after_plan endpoint (after (dispatch event) w).
Proof.
  intros (Hep & Hall & Hscan & Hlayers).
  assert (Happend : forall new w',
    trace w' = (trace w ++ new)%list ->
    published_endpoint w' = published_endpoint w ->
    Forall (fun a => forall url, a = InfoSet url -> url = endpoint) new ->
    each_preceded is_layer_added is_info_set
      (existsb is_layer_added (trace w)) new = true ->
    (layers (container w') <> [] ->
     layers (container w) <> [] \/ existsb is_layer_added new = true) ->
    publishes_after_plan endpoint w').
  { intros new w' Ht Hn Hnew Hs Hl. split; [rewrite Hn; exact Hep|].
    split; [rewrite Ht; apply Forall_app; split; assumption|].
    split; [rewrite Ht, each_preceded_app, Hscan; exact Hs|].
    intros H. rewrite Ht, existsb_app.
    destruct (Hl H) as [H'|H']; [rewrite (Hlayers H')|rewrite H', orb_true_r];
      reflexivity. }
  pose proof (dispatch_cases event w) as H. cbv zeta in H.
  destruct H as [H|[H|[(_ & _ & H)|[(_ & H)|[(_ & _ & _ & H)|[(Hrun & H)|
                 [(u & _ & _ & H)|[(u & _ & _ & _ & H)
                 |(u & _ & _ & _ & H)]]]]]]]];
    rewrite H; clear H.
  - split; [exact Hep|]. split; [exact Hall|]. split; [exact Hscan|exact Hlayers].
  - eapply Happend; [reflexivity|reflexivity| | |auto].
    + constructor; [discriminate|constructor].
    + reflexivity.
  - eapply Happend; [reflexivity|reflexivity| | |auto].
    + repeat (constructor; [discriminate|]). constructor.
    + reflexivity.
  - eapply Happend; [reflexivity|reflexivity| | |auto].
    + constructor; [discriminate|constructor].
    + reflexivity.
  - eapply Happend; [reflexivity|reflexivity| | |].
    + repeat (constructor; [discriminate|]).
      constructor; [|constructor]. intros url [= <-]. exact Hep.
    + cbn. rewrite !orb_true_r. reflexivity.
    + intros _. right. reflexivity.
  - eapply Happend; [reflexivity|reflexivity| | |auto].
    + constructor; [|constructor]. intros url [= <-]. exact Hep.
    + cbn. rewrite (Hlayers (running_has_layers _ Hrun)). reflexivity.
  - generalize (nrfcfg (hd EmptyString (split comma u))). intros content.
    eapply (Happend [Pushed "/etc/nrf/nrfcfg.yaml" content; _]);
      [unfold status_set, config_written; cbn [trace];
       rewrite <- app_assoc; reflexivity|reflexivity| | |auto].
    + repeat (constructor; [discriminate|]). constructor.
    + reflexivity.
  - generalize (nrfcfg (hd EmptyString (split comma u))). intros content.
    eapply (Happend (Pushed "/etc/nrf/nrfcfg.yaml" content :: _));
      [unfold converged, config_written; cbn [trace];
       rewrite <- app_assoc; reflexivity|reflexivity| | |].
    + repeat (constructor; [discriminate|]).
      constructor; [|constructor]. intros url [= <-]. exact Hep.
    + cbn. rewrite !orb_true_r. reflexivity.
    + intros _. right. reflexivity.
  - generalize (nrfcfg (hd EmptyString (split comma u))). intros content.
    eapply (Happend [Pushed "/etc/nrf/nrfcfg.yaml" content]);
      [reflexivity|reflexivity| | |auto].
    + constructor; [discriminate|constructor].
    + reflexivity.
Qed.

Lemma step_publishes endpoint s w :
  publishes_after_plan endpoint w -> publishes_after_plan endpoint (step s w).
Proof.
  destruct s as [event|b|name id|name|path|name];
    [apply dispatch_publishes|intros H; exact H ..].
Qed.

Lemma run_publishes endpoint steps w :
  publishes_after_plan endpoint w -> publishes_after_plan endpoint (run steps w).
Proof.
  revert w. induction steps as [|s r IH]; intros w H; [exact H|].
  cbn [run foldl]. apply IH, step_publishes, H.
Qed.

(** X12. In an execution that starts with an empty log and a container
    without layers, every publication carries the one endpoint URL built
    from the application and model name, and comes after the layer was
    added: the endpoint is never published before the plan was applied. *)
Theorem endpoint_published_after_plan
    (steps : list Step) (w0 : World) (pre post : list Action) (url : string) :
  trace w0 = [] ->
  layers (container w0) = [] ->
  trace (run steps w0) = (pre ++ InfoSet url :: post)%list ->
  url = "http://" +:+ app_name w0 +:+ "." +:+ model_name w0
        +:+ ".svc.cluster.local:29510" /\
  exists label layer combine, LayerAdded label layer combine ∈ pre.
Proof.
  intros Ht Hl Hrun.
  assert (H0 : publishes_after_plan (published_endpoint w0) w0).
  { split; [reflexivity|]. rewrite Ht.
    split; [constructor|]. split; [reflexivity|]. intros H. destruct (H Hl). }
  destruct (run_publishes _ steps w0 H0) as (_ & Hall & Hscan & _).
  rewrite Hrun in Hall, Hscan. split.
  - apply Forall_app in Hall as [_ Hall].
    apply Forall_cons in Hall as [Hurl _]. exact (Hurl url eq_refl).
  - apply each_preceded_split in Hscan as [H|H]; [discriminate| |reflexivity].
    apply existsb_elem in H as (a & Hin & Ha).
    destruct a; try discriminate. eauto.
Qed.

Lemma endpoint_published_after_plan_witness :
  let w0 := initial_world "nrf" "core" in
  let pre :=
    [ StatusSet (WaitingStatus "Waiting for container to be ready");
      Deferred database_relation_joined;
      StatusSet (WaitingStatus "Waiting for config file to be written");
      Pushed "/etc/nrf/nrfcfg.yaml" (nrfcfg "1.2.3.4:1234");
      LayerAdded "nrf" _pebble_layer true; Replanned;
      StatusSet (ActiveStatus EmptyString) ] in
  trace w0 = [] /\ layers (container w0) = [] /\
  trace (run sample_steps w0)
    = (pre ++ [InfoSet "http://nrf.core.svc.cluster.local:29510"])%list /\
  exists label layer combine, LayerAdded label layer combine ∈ pre.
Proof.
  intros w0 pre.
  assert (Hrun : trace (run sample_steps w0)
                 = (pre ++ InfoSet "http://nrf.core.svc.cluster.local:29510"
                           :: [])%list)
    by (vm_compute; reflexivity).
  split; [reflexivity|]. split; [reflexivity|]. split; [exact Hrun|].
  exact (proj2 (endpoint_published_after_plan sample_steps w0 pre [] _
                  eq_refl eq_refl Hrun)).
Defined.

(** ** Executions: waiting for the database *)

Lemma step_quiet s w :
  delivers_database_created s = false ->
  ~ config_file_present w ->
  ~ config_file_present (step s w) /\
  layers (container (step s w)) = layers (container w) /\
  exists new, trace (step s w) = (trace w ++ new)%list /\
              forallb quiet new = true.
Proof.
  intros Hs Hf.
  assert (Hsame : forall w',
    files (container w') = files (container w) ->
    layers (container w') = layers (container w) ->
    forall new, trace w' = (trace w ++ new)%list ->
    forallb quiet new = true ->
    ~ config_file_present w' /\
    layers (container w') = layers (container w) /\
    exists new, trace w' = (trace w ++ new)%list /\ forallb quiet new = true).
  { intros w' Hfiles Hlayers new Ht Hq.
    split; [unfold config_file_present; rewrite Hfiles; exact Hf|].
    split; [exact Hlayers|]. exists new. auto. }
  destruct s as [event|b|name id|name|path|name]; cbn [step].
  - pose proof (dispatch_cases event w) as H. cbv zeta in H.
    destruct H as [H|[H|[(_ & _ & H)|[(_ & H)|[(_ & _ & Hc & H)|[(_ & H)|
                   [(u & He & _)|[(u & He & _)|(u & He & _)]]]]]]]];
      try (subst event; discriminate Hs);
      try (destruct (Hf Hc));
      rewrite H; clear H.
    + apply (Hsame _ eq_refl eq_refl []); [rewrite app_nil_r|]; reflexivity.
    + eapply Hsame; reflexivity.
    + eapply Hsame; reflexivity.
    + eapply Hsame; reflexivity.
    + eapply Hsame; reflexivity.
  - apply (Hsame _ eq_refl eq_refl []); [|reflexivity].
    cbn [trace with_container]. rewrite app_nil_r. reflexivity.
  - apply (Hsame _ eq_refl eq_refl []); [|reflexivity].
    cbn [trace]. rewrite app_nil_r. reflexivity.
  - apply (Hsame _ eq_refl eq_refl []); [|reflexivity].
    cbn [trace]. rewrite app_nil_r. reflexivity.
  - split; [|split; [reflexivity|exists []; rewrite app_nil_r; auto]].
    unfold config_file_present, with_container. cbn [container files].
    intros [x Hx]. apply lookup_delete_Some in Hx as [_ Hx]. apply Hf.
    exists x. exact Hx.
  - apply (Hsame _ eq_refl eq_refl []); [|reflexivity].
    cbn [trace with_container]. rewrite app_nil_r. reflexivity.
Qed.

(** X13. As long as no database-created event is delivered, a unit that
    starts without the configuration file never gets it: whatever else is
    delivered and however the platform changes, no file is pushed, no layer
    is added, nothing is replanned and the status never becomes Active. *)
Theorem waits_without_database_created (steps : list Step) (w0 : World) :
  ~ config_file_present w0 ->
  forallb (fun s => negb (delivers_database_created s)) steps = true ->
  let w := run steps w0 in
  (config_file_present w -> False) /\
  layers (container w) = layers (container w0) /\
  trace w = (trace w0 ++ drop (length (trace w0)) (trace w))%list /\
  forallb quiet (drop (length (trace w0)) (trace w)) = true.
Proof.
  intros Hf Hsteps w.
  assert (H : ~ config_file_present w /\
              layers (container w) = layers (container w0) /\
              exists new, trace w = (trace w0 ++ new)%list /\
                          forallb quiet new = true).
  { unfold w. clear w. revert w0 Hf.
    induction steps as [|s r IH]; intros w0 Hf.
    - split; [exact Hf|]. split; [reflexivity|].
      exists []. rewrite app_nil_r. auto.
    - cbn [forallb] in Hsteps. apply andb_true_iff in Hsteps as [Hs Hr].
      apply negb_true_iff in Hs.
      destruct (step_quiet s w0 Hs Hf) as (Hf1 & Hl1 & new1 & Ht1 & Hq1).
      destruct (IH Hr _ Hf1) as (Hf2 & Hl2 & new2 & Ht2 & Hq2).
      cbn [run foldl]. split; [exact Hf2|].
      split; [unfold run in Hl2; rewrite Hl2; exact Hl1|].
      exists (new1 ++ new2)%list. unfold run in Ht2.
      rewrite Ht2, Ht1, <- app_assoc, forallb_app, Hq1, Hq2. auto. }
  destruct H as (Hf' & Hl & new & Ht & Hq).
  split; [exact Hf'|]. split; [exact Hl|].
  rewrite Ht, drop_app_length. auto.
Qed.

Lemma waits_without_database_created_witness :
  let w0 := sample_world true true false in
  let steps := [Deliver nrf_pebble_ready; Reachability false;
                Deliver database_relation_joined; Reachability true;
                Deliver nrf_relation_joined; Deliver nrf_pebble_ready] in
  let w := run steps w0 in
  ~ config_file_present w0 /\
  forallb (fun s => negb (delivers_database_created s)) steps = true /\
  layers (container w) = [] /\
  forallb quiet (trace w) = true /\
  unit_status w = Some (WaitingStatus "Waiting for config file to be written").
Proof.
  intros w0 steps w.
  assert (Hf : ~ config_file_present w0)
    by (vm_compute; intros [r Hx]; discriminate).
  assert (Hs : forallb (fun s => negb (delivers_database_created s)) steps
               = true) by reflexivity.
  destruct (waits_without_database_created steps w0 Hf Hs)
    as (_ & Hl & _ & Hq).
  split; [exact Hf|]. split; [exact Hs|]. split; [exact Hl|].
  split; [exact Hq|]. vm_compute. reflexivity.
Defined.

(** ** Replaying the database-created handler *)

(** X14. On a reachable container a second database-created event
    overwrites the configuration file with the rendering for its own first
    URI, whatever the first event wrote, and leaves layers, plan, started
    services, unit status and relation data as the first event left
    them. *)
Theorem database_created_replay (u1 u2 : string) (w : World) :
  runtime_reachable w ->
  let w1 := after (_on_database_created (database_created (Some u1))) w in
  let w2 := after (_on_database_created (database_created (Some u2))) w1 in
  files (container w2)
    = <["/etc/nrf/nrfcfg.yaml" := nrfcfg (hd EmptyString (split comma u2))]>
        (files (container w)) /\
  layers (container w2) = layers (container w1) /\
  Pebble.plan (layers (container w2)) = Pebble.plan (layers (container w1)) /\
  active (container w2) = active (container w1) /\
  unit_status w2 = unit_status w1 /\
  nrf_relation_data w2 = nrf_relation_data w1.
Proof.
  intros Hr w1 w2. unfold w2, w1, after. clear w1 w2.
  rewrite (database_created_reachable u1 w Hr).
  generalize (nrfcfg (hd EmptyString (split comma u1))). intros c1.
  assert (Hpresent : forall c v,
            config_file_present (config_written c v)).
  { intros c v. unfold config_file_present, config_written.
    cbn [container files]. rewrite lookup_insert_eq. eauto. }
  destruct (database_relations_cases w) as [Hd|[Hd|Hd]]; [| |].
  2: {
    rewrite (pebble_ready_converged _ (config_written c1 w)
               Hd Hr (Hpresent _ _)). cbn [snd].
    rewrite (database_created_reachable u2 (converged (config_written c1 w)) Hr).
    generalize (nrfcfg (hd EmptyString (split comma u2))). intros c2.
    rewrite (pebble_ready_converged _
               (config_written c2 (converged (config_written c1 w)))
               Hd Hr (Hpresent _ _)). cbn [snd].
    unfold converged, config_written.
    cbn [container files layers active unit_status nrf_relation_data
         reachable app_name model_name published_endpoint].
    rewrite layers_with_nrf_twice, !insert_insert_eq.
    repeat split; try reflexivity.
    rewrite <- (assoc_L (∪)), (idemp_L (∪)). reflexivity. }
  - rewrite (pebble_ready_blocked _ (config_written c1 w) Hd). cbn [snd].
    assert (Hr1 : runtime_reachable
              (status_set
                 (BlockedStatus "Waiting for database relation to be created")
                 [] (config_written c1 w))) by exact Hr.
    rewrite (database_created_reachable u2 _ Hr1).
    generalize (nrfcfg (hd EmptyString (split comma u2))). intros c2.
    rewrite (pebble_ready_blocked _
               (config_written c2
                  (status_set
                     (BlockedStatus
                        "Waiting for database relation to be created")
                     [] (config_written c1 w))) Hd). cbn [snd].
    unfold status_set, config_written.
    cbn [container files layers active unit_status nrf_relation_data
         reachable].
    rewrite insert_insert_eq. repeat split; reflexivity.
  - rewrite (pebble_ready_several _ (config_written c1 w) Hd). cbn [snd].
    assert (Hr1 : runtime_reachable (config_written c1 w)) by exact Hr.
    rewrite (database_created_reachable u2 _ Hr1).
    generalize (nrfcfg (hd EmptyString (split comma u2))). intros c2.
    rewrite (pebble_ready_several _
               (config_written c2 (config_written c1 w)) Hd). cbn [snd].
    unfold config_written.
    cbn [container files layers active unit_status nrf_relation_data
         reachable].
    rewrite insert_insert_eq. repeat split; reflexivity.
Qed.

Lemma database_created_replay_witness :
  let w := sample_world true true false in
  let w1 := after (_on_database_created
                     (database_created (Some "5.6.7.8:1111"))) w in
  let w2 := after (_on_database_created
                     (database_created (Some "1.2.3.4:1234,5.6.7.8:1111")))
                  w1 in
  runtime_reachable w /\
  files (container w2)
    = <["/etc/nrf/nrfcfg.yaml" := nrfcfg "1.2.3.4:1234"]> (files (container w))
  /\ layers (container w2) = layers (container w1).
Proof.
  intros w w1 w2.
  assert (Hr : runtime_reachable w) by reflexivity.
  destruct (database_created_replay "5.6.7.8:1111" "1.2.3.4:1234,5.6.7.8:1111"
              w Hr) as (Hfiles & Hlayers & _).
  split; [exact Hr|]. split; [exact Hfiles|exact Hlayers].
Defined.

(** ** Writing the configuration file *)

Lemma write_config_file_reachable database_url w :
  runtime_reachable w ->
  _write_config_file database_url w
  = (Return tt, config_written (expected_source database_url) w).
Proof.
  intros Hr. rewrite <- nrfcfg_expected.
  change (_write_config_file database_url)
    with (push config_path (nrfcfg database_url)).
  generalize (nrfcfg database_url). intros content.
  destruct_world w. revert Hr. unfold_charm. intros ->. reflexivity.
Qed.

(** X15. [_write_config_file] makes one call: it pushes to
    [/etc/nrf/nrfcfg.yaml], byte for byte, the text the unit test expects
    with the database URL in the place of its first URI, whatever the URL,
    and touches nothing else.  It has no guard of its own: called on a
    container that cannot be reached it raises [ConnectionError] and changes
    nothing. *)
Theorem write_config_file_pushes_expected_text
    (database_url : string) (w : World) :
  (runtime_reachable w ->
   let w' := after (_write_config_file database_url) w in
   outcome (_write_config_file database_url) w = Return tt /\
   new_actions (_write_config_file database_url) w =
     [Pushed "/etc/nrf/nrfcfg.yaml" (expected_source database_url)] /\
   files (container w') =
     <["/etc/nrf/nrfcfg.yaml" := expected_source database_url]>
       (files (container w)) /\
   layers (container w') = layers (container w) /\
   active (container w') = active (container w) /\
   unit_status w' = unit_status w /\
   nrf_relation_data w' = nrf_relation_data w) /\
  (~ runtime_reachable w ->
   _write_config_file database_url w = (Raise ConnectionError, w)).
Proof.
  split.
  - intros Hr w'. unfold w', outcome, new_actions, after.
    rewrite (write_config_file_reachable _ _ Hr). cbn [fst snd].
    unfold config_written. cbn [trace container files layers active
      unit_status nrf_relation_data]. rewrite drop_app_length. auto 10.
  - intros Hr. unfold _write_config_file.
    generalize (render nrfcfg_yaml_j2
      (<["database_name":=DATABASE_NAME]> (<["database_url":=database_url]> ∅))).
    intros content. destruct_world w. revert Hr. unfold_charm.
    destruct rch; [intros []; reflexivity|reflexivity].
Qed.

Lemma write_config_file_pushes_expected_text_witness :
  let w := sample_world false true false in
  let v := sample_world false false false in
  runtime_reachable w /\ ~ runtime_reachable v /\
  new_actions (_write_config_file "1.2.3.4:1234") w =
    [Pushed "/etc/nrf/nrfcfg.yaml" (expected_source "1.2.3.4:1234")] /\
  _write_config_file "1.2.3.4:1234" v = (Raise ConnectionError, v).
Proof.
  intros w v.
  assert (Hw : runtime_reachable w) by reflexivity.
  assert (Hv : ~ runtime_reachable v) by (vm_compute; discriminate).
  destruct (write_config_file_pushes_expected_text "1.2.3.4:1234" w)
    as [Hpush _].
  destruct (write_config_file_pushes_expected_text "1.2.3.4:1234" v)
    as [_ Hraise].
  destruct (Hpush Hw) as (_ & Hnew & _).
  split; [exact Hw|]. split; [exact Hv|]. split; [exact Hnew|exact (Hraise Hv)].
Defined.
